(** * websocket-chat-demo: the token gate of [auth.go]

    A shallow embedding of [auth.go] (credential issuance, credential
    extraction, credential verification and the connection gate), of the
    parts of [net/http], [strings] and [golang-jwt/jwt/v5] that it runs
    through, and of the Hub registry operation the specification
    describes.

    Conventions.
    - A Go [string] is a [string] of bytes ([ascii]).
    - A multiple return [(v, err)] of [auth.go] is a pair whose second
      component is [option error]: [None] is Go's [nil] error. A call
      that returns a pointer or a value read only when the error is nil
      is a sum, [inl err] or [inr v].
    - A [time.Time] is a number of nanoseconds since the Unix epoch, in
      [Z]; a [jwt.NumericDate] is a number of whole seconds.
    - Calls to [time.Now()] are inputs: every function that reads the
      clock takes the readings as arguments, in the order of the calls. *)

From Stdlib Require Import ZArith String Ascii List Bool Lia.
From Stdlib Require Import DecimalString.
From stdpp Require Import base option gmap strings.
Import ListNotations.

Local Open Scope string_scope.
Local Open Scope Z_scope.

(** ** Errors *)

(** One constructor per place where [auth.go] or the token library makes
    an error value. *)
Inductive error : Type :=
| ErrNoTokenFound                               (* "no token found in request" *)
| ErrUnexpectedSigningMethod (alg : option string)
                                                (* "unexpected signing method: %v" *)
| ErrInvalidToken                               (* "invalid token" *)
| ErrInvalidTokenWrap (cause : error)           (* "invalid token: %v" *)
| ErrTokenMalformed                             (* jwt.ErrTokenMalformed *)
| ErrAlgUnavailable                             (* jwt.ErrTokenUnverifiable,
                                                   "signing method (alg) is unavailable" *)
| ErrAlgUnspecified                             (* jwt.ErrTokenUnverifiable,
                                                   "signing method (alg) is unspecified" *)
| ErrKeyfunc (cause : error)                    (* jwt.ErrTokenUnverifiable,
                                                   "error while executing keyfunc" *)
| ErrTokenSignatureInvalid                      (* jwt.ErrTokenSignatureInvalid *)
| ErrTokenInvalidClaims (expired notValidYet : bool)
                                                (* jwt.ErrTokenInvalidClaims joined with
                                                   ErrTokenExpired, ErrTokenNotValidYet *)
| ErrInvalidKeyType                             (* jwt.ErrInvalidKeyType *)
| ErrInvalidKey.                                (* jwt.ErrInvalidKey *)

(** ** Package [strings] *)

Module GoStrings.

(** [strings.Split(s, sep)] for a separator of one byte: the substrings
    of [s] between the occurrences of [sep]; [Split("", sep)] is the
    one-element slice holding the empty string. The result is never
    empty, so the last branch below is never taken. *)
Fixpoint Split (s : string) (sep : ascii) : list string :=
  match s with
  | EmptyString => [EmptyString]
  | String c rest =>
      if Ascii.eqb c sep then EmptyString :: Split rest sep
      else match Split rest sep with
           | part :: parts => String c part :: parts
           | [] => [String c EmptyString]
           end
  end.

(** No byte of [s] is [sep]. *)
Fixpoint free_of (sep : ascii) (s : string) : bool :=
  match s with
  | EmptyString => true
  | String c rest => negb (Ascii.eqb c sep) && free_of sep rest
  end.

End GoStrings.

(** ** Package [net/http] *)

Module http.

Definition MethodGet : string := "GET".
Definition MethodPost : string := "POST".

Definition StatusOK : Z := 200.
Definition StatusMethodNotAllowed : Z := 405.
Definition StatusInternalServerError : Z := 500.

(** [http.Header] and [url.Values] are both [map[string][]string]. *)
Abbreviation Values := (gmap string (list string)).

(** [Header.Get] and [Values.Get]: the first value stored under the key,
    the empty string when there is none. *)
Definition Get (v : Values) (key : string) : string :=
  match v !! key with
  | Some (first :: _) => first
  | _ => ""
  end.

(** [Header.Set]: the key now holds exactly that value. *)
Definition Set_ (v : Values) (key value : string) : Values :=
  <[key := [value]]> v.

(** The fields of [*http.Request] that [auth.go] reads. [Query] is the
    result of [r.URL.Query()]. *)
Record Request : Type := mkRequest {
  Method : string;
  Header : Values;
  Query : Values
}.

(** An [http.ResponseWriter], as a recorder: the header map, the status
    code once it is written, and the values written to the body. *)
Record ResponseWriter (B : Type) : Type := mkResponseWriter {
  RHeader : Values;
  Code : option Z;
  Body : list B
}.
Arguments mkResponseWriter {B}.
Arguments RHeader {B}.
Arguments Code {B}.
Arguments Body {B}.

Definition NewRecorder {B : Type} : ResponseWriter B :=
  {| RHeader := ∅; Code := None; Body := [] |}.

(** [w.Header().Set(key, value)]. *)
Definition SetHeader {B : Type} (key value : string) (w : ResponseWriter B)
  : ResponseWriter B :=
  {| RHeader := Set_ (RHeader w) key value; Code := Code w; Body := Body w |}.

(** [w.WriteHeader(code)]: only the first call sets the status. *)
Definition WriteHeader {B : Type} (code : Z) (w : ResponseWriter B)
  : ResponseWriter B :=
  {| RHeader := RHeader w;
     Code := match Code w with None => Some code | Some c => Some c end;
     Body := Body w |}.

(** [w.Write(b)]: writes the status 200 first if none was written. *)
Definition Write {B : Type} (b : B) (w : ResponseWriter B) : ResponseWriter B :=
  let w := WriteHeader StatusOK w in
  {| RHeader := RHeader w; Code := Code w; Body := Body w ++ [b] |}.

End http.

(** ** [extractTokenFromRequest] *)

(** Method 1 is the Authorization header, method 2 the query
    parameter. *)
Definition extractTokenFromRequest (r : http.Request) : string * option error :=
  let authHeader := http.Get (http.Header r) "Authorization" in
  let fromQuery :=
    let token := http.Get (http.Query r) "token" in
    if negb (String.eqb token "") then (token, None)
    else ("", Some ErrNoTokenFound) in
  if negb (String.eqb authHeader "") then
    let parts := GoStrings.Split authHeader " "%char in
    match parts with
    | [p0; p1] => if String.eqb p0 "Bearer" then (p1, None) else fromQuery
    | _ => fromQuery
    end
  else fromQuery.

(** ** Package [time] *)

Module GoTime.

(** Nanoseconds since the Unix epoch. *)
Definition Instant : Type := Z.
(** [time.Duration]: nanoseconds. *)
Definition Duration : Type := Z.

Definition Second : Duration := 1000000000.
Definition Hour : Duration := 3600 * Second.

(** [t.Add(d)]. *)
Definition Add (t : Instant) (d : Duration) : Instant := t + d.
(** [t.Unix()]: whole seconds since the epoch, rounded down. *)
Definition Unix (t : Instant) : Z := t / Second.
(** [time.Unix(sec, 0)]. *)
Definition FromUnix (sec : Z) : Instant := sec * Second.
(** [t.Before(u)]. *)
Definition Before (t u : Instant) : bool := t <? u.

End GoTime.

(** ** Package [golang-jwt/jwt/v5] *)

Module jwt.

Inductive Hash : Type := SHA256 | SHA384 | SHA512.

(** The implementations of the [SigningMethod] interface, by dynamic
    type; the registered instances of each type differ in the hash. *)
Inductive SigningMethod : Type :=
| SigningMethodHMAC (h : Hash)      (* HS256, HS384, HS512 *)
| SigningMethodRSA (h : Hash)       (* RS256, RS384, RS512 *)
| SigningMethodRSAPSS (h : Hash)    (* PS256, PS384, PS512 *)
| SigningMethodECDSA (h : Hash)     (* ES256, ES384, ES512 *)
| SigningMethodEd25519              (* EdDSA *)
| signingMethodNone.                (* none *)

Definition SigningMethodHS256 : SigningMethod := SigningMethodHMAC SHA256.

Definition bits (h : Hash) : string :=
  match h with SHA256 => "256" | SHA384 => "384" | SHA512 => "512" end.

(** [m.Alg()]. *)
Definition Alg (m : SigningMethod) : string :=
  match m with
  | SigningMethodHMAC h => "HS" +:+ bits h
  | SigningMethodRSA h => "RS" +:+ bits h
  | SigningMethodRSAPSS h => "PS" +:+ bits h
  | SigningMethodECDSA h => "ES" +:+ bits h
  | SigningMethodEd25519 => "EdDSA"
  | signingMethodNone => "none"
  end.

Definition registered : list SigningMethod :=
  [ SigningMethodHMAC SHA256; SigningMethodHMAC SHA384; SigningMethodHMAC SHA512;
    SigningMethodRSA SHA256; SigningMethodRSA SHA384; SigningMethodRSA SHA512;
    SigningMethodRSAPSS SHA256; SigningMethodRSAPSS SHA384; SigningMethodRSAPSS SHA512;
    SigningMethodECDSA SHA256; SigningMethodECDSA SHA384; SigningMethodECDSA SHA512;
    SigningMethodEd25519; signingMethodNone ].

(** [GetSigningMethod(alg)]: the method registered under that name. *)
Definition GetSigningMethod (alg : string) : option SigningMethod :=
  List.find (fun m => String.eqb (Alg m) alg) registered.

(** [jwt.NumericDate] with the default [TimePrecision] of one second:
    a number of whole seconds since the epoch. *)
Definition NumericDate : Type := Z.

(** [NewNumericDate(t)] truncates [t] to the second. *)
Definition NewNumericDate (t : GoTime.Instant) : NumericDate := GoTime.Unix t.

Record RegisteredClaims : Type := mkRegisteredClaims {
  Issuer : string;
  Subject : string;
  Audience : list string;
  ExpiresAt : option NumericDate;
  NotBefore : option NumericDate;
  IssuedAt : option NumericDate;
  ID : string
}.

(** The [Claims] interface, as far as the validator reads it. *)
Class Claims (C : Type) : Type := {
  GetExpirationTime : C -> option NumericDate;
  GetNotBefore : C -> option NumericDate;
  GetIssuedAt : C -> option NumericDate
}.

#[export] Instance RegisteredClaims_Claims : Claims RegisteredClaims :=
  {| GetExpirationTime := ExpiresAt;
     GetNotBefore := NotBefore;
     GetIssuedAt := IssuedAt |}.

(** The token header: [typ] and [alg], each absent or a string. *)
Record Header : Type := mkHeader {
  typ : option string;
  alg : option string
}.

(** A key is a byte string ([[]byte]). *)
Definition Key : Type := string.

Record Token (C : Type) : Type := mkToken {
  Raw : string;
  Method : SigningMethod;
  THeader : Header;
  TClaims : C;
  Signature : string;
  Valid : bool
}.
Arguments mkToken {C}.
Arguments Raw {C}.
Arguments Method {C}.
Arguments THeader {C}.
Arguments TClaims {C}.
Arguments Signature {C}.
Arguments Valid {C}.

(** What the library delegates to [encoding/base64], [encoding/json]
    and [crypto]: segment codecs and the signature primitives. They are
    the parameters of the model. *)
Class Backend (C : Type) : Type := {
  (* json.Marshal then EncodeSegment, and back *)
  encodeHeader : Header -> string;
  decodeHeader : string -> option Header;
  encodeClaims : C -> string;
  decodeClaims : string -> option C;
  EncodeSegment : string -> string;
  DecodeSegment : string -> option string;
  (* m.Sign(signingString, key) *)
  Sign : SigningMethod -> string -> Key -> error + string;
  (* m.Verify(signingString, sig, key) returns a nil error *)
  Verify : SigningMethod -> string -> string -> Key -> bool
}.

Section Parser.
Context {C : Type} `{CI : Claims C} `{BE : Backend C}.

(** [NewWithClaims(method, claims)]. *)
Definition NewWithClaims (method : SigningMethod) (claims : C) : Token C :=
  {| Raw := "";
     Method := method;
     THeader := {| typ := Some "JWT"; alg := Some (Alg method) |};
     TClaims := claims;
     Signature := "";
     Valid := false |}.

(** [t.SigningString()]. *)
Definition SigningString (t : Token C) : string :=
  encodeHeader (THeader t) +:+ "." +:+ encodeClaims (TClaims t).

(** [t.SignedString(key)]. *)
Definition SignedString (t : Token C) (key : Key) : error + string :=
  let sstr := SigningString t in
  match Sign (Method t) sstr key with
  | inl err => inl err
  | inr sig => inr (sstr +:+ "." +:+ EncodeSegment sig)
  end.

(** [Parser.ParseUnverified]: three segments, the header, the claims,
    and the method the header names. On success the token comes with
    its three segments; the partial token Go returns next to an error is
    never read by [auth.go] and is left out. *)
Definition ParseUnverified (tokenString : string)
  : error + (Token C * (string * string * string)) :=
  match GoStrings.Split tokenString "."%char with
  | [p0; p1; p2] =>
      match decodeHeader p0 with
      | None => inl ErrTokenMalformed
      | Some header =>
          match decodeClaims p1 with
          | None => inl ErrTokenMalformed
          | Some claims =>
              match alg header with
              | None => inl ErrAlgUnspecified
              | Some name =>
                  match GetSigningMethod name with
                  | None => inl ErrAlgUnavailable
                  | Some method =>
                      inr ({| Raw := tokenString; Method := method;
                              THeader := header; TClaims := claims;
                              Signature := ""; Valid := false |},
                           (p0, p1, p2))
                  end
              end
          end
      end
  | _ => inl ErrTokenMalformed
  end.

(** [Validator.verifyExpiresAt] with no leeway, the claim not
    required. *)
Definition verifyExpiresAt (claims : C) (now : GoTime.Instant) : bool :=
  match GetExpirationTime claims with
  | None => true
  | Some exp => GoTime.Before now (GoTime.FromUnix exp)
  end.

(** [Validator.verifyNotBefore] with no leeway, the claim not
    required. *)
Definition verifyNotBefore (claims : C) (now : GoTime.Instant) : bool :=
  match GetNotBefore claims with
  | None => true
  | Some nbf => negb (GoTime.Before now (GoTime.FromUnix nbf))
  end.

(** [Validator.Validate] of the default validator: expiry and
    not-before; issued-at, audience, issuer and subject are checked only
    on request, and nothing requests them here. *)
Definition Validate (claims : C) (now : GoTime.Instant) : option error :=
  let okExp := verifyExpiresAt claims now in
  let okNbf := verifyNotBefore claims now in
  if okExp && okNbf then None
  else Some (ErrTokenInvalidClaims (negb okExp) (negb okNbf)).

Definition Keyfunc : Type := Token C -> error + Key.

(** [Parser.ParseWithClaims] of the default parser (no list of valid
    methods, claims validation on). [now] is the validator's reading of
    the clock. The steps are the library's: parse, decode the signature,
    ask [keyFunc] for the key, verify the signature, validate the
    claims. (The first releases of v5 ask [keyFunc] before they decode
    the signature; a token that fails both gets the other error, and
    nothing else changes.) *)
Definition ParseWithClaims (now : GoTime.Instant) (tokenString : string)
    (keyFunc : Keyfunc) : error + Token C :=
  match ParseUnverified tokenString with
  | inl err => inl err
  | inr (token, (p0, p1, p2)) =>
      match DecodeSegment p2 with
      | None => inl ErrTokenMalformed
      | Some sig =>
          let token :=
            {| Raw := Raw token; Method := Method token;
               THeader := THeader token; TClaims := TClaims token;
               Signature := sig; Valid := false |} in
          let text := p0 +:+ "." +:+ p1 in
          match keyFunc token with
          | inl err => inl (ErrKeyfunc err)
          | inr key =>
              if negb (Verify (Method token) text sig key)
              then inl ErrTokenSignatureInvalid
              else
                match Validate (TClaims token) now with
                | Some err => inl err
                | None =>
                    inr {| Raw := Raw token; Method := Method token;
                           THeader := THeader token; TClaims := TClaims token;
                           Signature := sig; Valid := true |}
                end
          end
      end
  end.

(** The contract of the codecs and of the signature primitives at one
    unsigned token and one key: the encoded segments hold no ".", each
    decodes to what was encoded, and a signature made with the key
    verifies under the same method and key. *)
Record RoundTrips (t : Token C) (key : Key) : Prop := mkRoundTrips {
  header_free : GoStrings.free_of "."%char (encodeHeader (THeader t)) = true;
  claims_free : GoStrings.free_of "."%char (encodeClaims (TClaims t)) = true;
  header_back : decodeHeader (encodeHeader (THeader t)) = Some (THeader t);
  claims_back : decodeClaims (encodeClaims (TClaims t)) = Some (TClaims t);
  sig_free : forall sig, Sign (Method t) (SigningString t) key = inr sig ->
               GoStrings.free_of "."%char (EncodeSegment sig) = true;
  sig_back : forall sig, Sign (Method t) (SigningString t) key = inr sig ->
               DecodeSegment (EncodeSegment sig) = Some sig;
  sign_verify : forall sig, Sign (Method t) (SigningString t) key = inr sig ->
                  Verify (Method t) (SigningString t) sig key = true
}.

End Parser.

End jwt.

(** ** [auth.go] *)

Definition jwtSecret : jwt.Key := "your-secret-key-change-in-production".

Module Claims.
Record t : Type := mk {
  GuestName : string;
  RegisteredClaims : jwt.RegisteredClaims
}.
End Claims.

(** The embedded [jwt.RegisteredClaims] gives [Claims] the methods of
    the [jwt.Claims] interface. *)
#[export] Instance Claims_Claims : jwt.Claims Claims.t :=
  {| jwt.GetExpirationTime c := jwt.ExpiresAt (Claims.RegisteredClaims c);
     jwt.GetNotBefore c := jwt.NotBefore (Claims.RegisteredClaims c);
     jwt.GetIssuedAt c := jwt.IssuedAt (Claims.RegisteredClaims c) |}.

Module TokenResponse.
Record t : Type := mk {
  Token : string;
  GuestName : string;
  ExpiresAt : Z
}.
End TokenResponse.

Module ErrorResponse.
Record t : Type := mk { Error : string }.
End ErrorResponse.

(** What [json.NewEncoder(w).Encode(v)] writes: the JSON document of
    [v], kept as the value. *)
Inductive JSON : Type :=
| JSONError (v : ErrorResponse.t)
| JSONToken (v : TokenResponse.t).

Definition Encode (v : JSON) (w : http.ResponseWriter JSON) : http.ResponseWriter JSON :=
  http.Write v w.

Section Auth.
Context `{B : jwt.Backend Claims.t}.

(** The claims [generateGuestToken] signs. [now1] is the clock reading
    of line 33, [now2] the one of line 38. *)
Definition guestClaims (now1 now2 : GoTime.Instant) (guestName : string) : Claims.t :=
  let expirationTime := GoTime.Add now1 (24 * GoTime.Hour) in
  {| Claims.GuestName := guestName;
     Claims.RegisteredClaims :=
       {| jwt.Issuer := ""; jwt.Subject := ""; jwt.Audience := [];
          jwt.ExpiresAt := Some (jwt.NewNumericDate expirationTime);
          jwt.NotBefore := None;
          jwt.IssuedAt := Some (jwt.NewNumericDate now2);
          jwt.ID := "" |} |}.

Definition generateGuestToken (now1 now2 : GoTime.Instant) (guestName : string)
  : string * Z * option error :=
  let expirationTime := GoTime.Add now1 (24 * GoTime.Hour) in
  let claims := guestClaims now1 now2 guestName in
  let token := jwt.NewWithClaims jwt.SigningMethodHS256 claims in
  match jwt.SignedString token jwtSecret with
  | inl err => ("", 0, Some err)
  | inr tokenString => (tokenString, GoTime.Unix expirationTime, None)
  end.

(** The key function of [validateToken]: a type assertion that the
    token's method is a [jwt.SigningMethodHMAC], and then the secret. *)
Definition keyFunc (token : jwt.Token Claims.t) : error + jwt.Key :=
  match jwt.Method token with
  | jwt.SigningMethodHMAC _ => inr jwtSecret
  | _ => inl (ErrUnexpectedSigningMethod (jwt.alg (jwt.THeader token)))
  end.

(** [now] is the clock reading of the library's validator. Every
    return of the source is [nil, err] or [claims, nil]: a sum. *)
Definition validateToken (now : GoTime.Instant) (tokenString : string)
  : error + Claims.t :=
  match jwt.ParseWithClaims now tokenString keyFunc with
  | inl err => inl err
  | inr token =>
      if negb (jwt.Valid token) then inl ErrInvalidToken
      else inr (jwt.TClaims token)
  end.

(** [hex] is the result of [randomHexStrings()]; [now1] and [now2] are
    the clock readings of [generateGuestToken]. *)
Definition handleGetToken (hex : string) (now1 now2 : GoTime.Instant)
    (w : http.ResponseWriter JSON) (r : http.Request) : http.ResponseWriter JSON :=
  if negb (String.eqb (http.Method r) http.MethodGet)
     && negb (String.eqb (http.Method r) http.MethodPost)
  then
    let w := http.SetHeader "Content-Type" "application/json" w in
    let w := http.WriteHeader http.StatusMethodNotAllowed w in
    Encode (JSONError {| ErrorResponse.Error := "Method not allowed" |}) w
  else
    let guestName := "guest-" +:+ hex in
    match generateGuestToken now1 now2 guestName with
    | (_, _, Some err) =>
        let w := http.SetHeader "Content-Type" "application/json" w in
        let w := http.WriteHeader http.StatusInternalServerError w in
        Encode (JSONError {| ErrorResponse.Error := "Failed to generate token" |}) w
    | (token, expiresAt, None) =>
        let w := http.SetHeader "Content-Type" "application/json" w in
        Encode (JSONToken {| TokenResponse.Token := token;
                             TokenResponse.GuestName := guestName;
                             TokenResponse.ExpiresAt := expiresAt |}) w
    end.

Definition authenticateWebSocket (now : GoTime.Instant) (r : http.Request)
  : string * option error :=
  match extractTokenFromRequest r with
  | (_, Some err) => ("", Some err)
  | (token, None) =>
      match validateToken now token with
      | inl err => ("", Some (ErrInvalidTokenWrap err))
      | inr claims => (Claims.GuestName claims, None)
      end
  end.

End Auth.

(** ** The Hub registry *)

(** Modelled from the spec: the Hub and its registry ([hub.go] is not
    among the sources). The registry is "the set of all currently live
    Client Sessions"; a session is a mutable record held by reference,
    so the set holds session references. [register] "adds session to
    the registry"; [unregister] "removes session if present; no-op if
    already removed". *)
Module Hub.

Definition SessionRef : Type := positive.

Abbreviation Registry := (gset SessionRef).

Definition register (session : SessionRef) (registry : Registry) : Registry :=
  {[session]} ∪ registry.

Definition unregister (session : SessionRef) (registry : Registry) : Registry :=
  if decide (session ∈ registry) then registry ∖ {[session]} else registry.

End Hub.

(** ** Package [encoding/json], strings *)

Module json.

Definition inRange (lo hi : N) (c : ascii) : bool :=
  ((lo <=? N_of_ascii c) && (N_of_ascii c <=? hi))%N.

(** A UTF-8 continuation byte. *)
Definition cont (c : ascii) : bool := inRange 128 191 c.

(** [utf8.DecodeRuneInString(s)]: the width of the well-formed UTF-8
    sequence at the head of [s]; [None] when the head byte starts none
    (the rune is [RuneError] and the width 1). *)
Definition runeWidth (s : string) : option nat :=
  match s with
  | EmptyString => None
  | String b0 rest =>
      if inRange 0 127 b0 then Some 1%nat
      else if inRange 194 223 b0 then
        match rest with
        | String b1 _ => if cont b1 then Some 2%nat else None
        | _ => None
        end
      else if inRange 224 239 b0 then
        match rest with
        | String b1 (String b2 _) =>
            let lo := if (N_of_ascii b0 =? 224)%N then 160%N else 128%N in
            let hi := if (N_of_ascii b0 =? 237)%N then 159%N else 191%N in
            if inRange lo hi b1 && cont b2 then Some 3%nat else None
        | _ => None
        end
      else if inRange 240 244 b0 then
        match rest with
        | String b1 (String b2 (String b3 _)) =>
            let lo := if (N_of_ascii b0 =? 240)%N then 144%N else 128%N in
            let hi := if (N_of_ascii b0 =? 244)%N then 143%N else 191%N in
            if inRange lo hi b1 && cont b2 && cont b3 then Some 4%nat else None
        | _ => None
        end
      else None
  end.

(** U+FFFD, the replacement character, in UTF-8. *)
Definition replacement : string :=
  String (ascii_of_N 239) (String (ascii_of_N 191) (String (ascii_of_N 189) "")).

(** A Go string after [json.Marshal] and [json.Unmarshal]: the encoder
    writes every byte that starts no well-formed UTF-8 sequence as
    U+FFFD and copies the well-formed sequences; the decoder gives the
    text back. [pending] counts the bytes still to copy of the sequence
    under way. *)
Fixpoint coerceFrom (pending : nat) (s : string) : string :=
  match s with
  | EmptyString => EmptyString
  | String c rest =>
      match pending with
      | S k => String c (coerceFrom k rest)
      | O =>
          match runeWidth s with
          | Some w => String c (coerceFrom (w - 1) rest)
          | None => replacement +:+ coerceFrom 0 rest
          end
      end
  end.

Definition coerce (s : string) : string := coerceFrom 0 s.

End json.

(** ** An executable backend *)

(** A small instance of [jwt.Backend], to run the model on concrete
    requests and tokens. Segments are written in base 16 where the
    library writes base 64; documents are comma-separated fields where
    the library writes JSON; the keyed hash is a polynomial checksum.
    As in the library, a byte-string key signs and verifies under the
    HMAC methods only. *)
Module Sample.

Definition hexDigit (n : N) : ascii :=
  ascii_of_N (if (n <? 10)%N then 48 + n else 87 + n)%N.

Definition hexValue (c : ascii) : option N :=
  let n := N_of_ascii c in
  if ((48 <=? n) && (n <=? 57))%N then Some (n - 48)%N
  else if ((97 <=? n) && (n <=? 102))%N then Some (n - 87)%N
  else None.

Fixpoint toHex (s : string) : string :=
  match s with
  | EmptyString => EmptyString
  | String c rest =>
      let n := N_of_ascii c in
      String (hexDigit (n / 16)) (String (hexDigit (n mod 16)) (toHex rest))
  end.

Fixpoint fromHex (s : string) : option string :=
  match s with
  | EmptyString => Some EmptyString
  | String a (String b rest) =>
      match hexValue a, hexValue b, fromHex rest with
      | Some x, Some y, Some t => Some (String (ascii_of_N (16 * x + y)) t)
      | _, _, _ => None
      end
  | String _ EmptyString => None
  end.

Definition showZ (z : Z) : string := NilZero.string_of_int (Z.to_int z).
Definition readZ (s : string) : option Z :=
  option_map Z.of_int (NilZero.int_of_string s).

(** An optional field: "-" when absent, "+" and the value otherwise. *)
Definition showOpt {A : Type} (show : A -> string) (o : option A) : string :=
  match o with None => "-" | Some a => String "+"%char (show a) end.
Definition readOpt {A : Type} (read : string -> option A) (s : string)
  : option (option A) :=
  match s with
  | String c rest =>
      if Ascii.eqb c "-"%char then
        if String.eqb rest "" then Some None else None
      else if Ascii.eqb c "+"%char then
        match read rest with Some a => Some (Some a) | None => None end
      else None
  | EmptyString => None
  end.

(** A list of strings: the items in base 16, each followed by ";". *)
Fixpoint showList (l : list string) : string :=
  match l with
  | [] => ""
  | x :: rest => toHex x +:+ ";" +:+ showList rest
  end.
Fixpoint readItems (parts : list string) : option (list string) :=
  match parts with
  | [] => None
  | [last] => if String.eqb last "" then Some [] else None
  | x :: rest =>
      match fromHex x, readItems rest with
      | Some y, Some ys => Some (y :: ys)
      | _, _ => None
      end
  end.
Definition readList (s : string) : option (list string) :=
  readItems (GoStrings.Split s ";"%char).

Definition showHeader (h : jwt.Header) : string :=
  showOpt toHex (jwt.typ h) +:+ "," +:+ showOpt toHex (jwt.alg h).
Definition readHeader (s : string) : option jwt.Header :=
  match GoStrings.Split s ","%char with
  | [t; a] =>
      match readOpt fromHex t, readOpt fromHex a with
      | Some t', Some a' => Some {| jwt.typ := t'; jwt.alg := a' |}
      | _, _ => None
      end
  | _ => None
  end.

Definition showClaims (c : Claims.t) : string :=
  let r := Claims.RegisteredClaims c in
  toHex (Claims.GuestName c) +:+ "," +:+
  toHex (jwt.Issuer r) +:+ "," +:+
  toHex (jwt.Subject r) +:+ "," +:+
  showList (jwt.Audience r) +:+ "," +:+
  showOpt showZ (jwt.ExpiresAt r) +:+ "," +:+
  showOpt showZ (jwt.NotBefore r) +:+ "," +:+
  showOpt showZ (jwt.IssuedAt r) +:+ "," +:+
  toHex (jwt.ID r).
Definition readClaims (s : string) : option Claims.t :=
  match GoStrings.Split s ","%char with
  | [g; i; su; au; e; n; ia; id] =>
      match fromHex g, fromHex i, fromHex su, readList au with
      | Some g', Some i', Some su', Some au' =>
          match readOpt readZ e, readOpt readZ n, readOpt readZ ia, fromHex id with
          | Some e', Some n', Some ia', Some id' =>
              Some {| Claims.GuestName := g';
                      Claims.RegisteredClaims :=
                        {| jwt.Issuer := i'; jwt.Subject := su'; jwt.Audience := au';
                           jwt.ExpiresAt := e'; jwt.NotBefore := n';
                           jwt.IssuedAt := ia'; jwt.ID := id' |} |}
          | _, _, _, _ => None
          end
      | _, _, _, _ => None
      end
  | _ => None
  end.

Definition bindOpt {A B : Type} (o : option A) (f : A -> option B) : option B :=
  match o with Some a => f a | None => None end.

(** The checksum of [text] under [key], started at the width of the
    hash. *)
Fixpoint checksum (acc : Z) (s : string) : Z :=
  match s with
  | EmptyString => acc
  | String c rest => checksum ((acc * 257 + Z.of_N (N_of_ascii c)) mod 4294967296) rest
  end.

Definition width (h : jwt.Hash) : Z :=
  match h with jwt.SHA256 => 256 | jwt.SHA384 => 384 | jwt.SHA512 => 512 end.

Definition mac (h : jwt.Hash) (text : string) (key : jwt.Key) : string :=
  showZ (checksum (width h) (key +:+ "." +:+ text)).

#[export] Instance backend : jwt.Backend Claims.t :=
  {| jwt.encodeHeader h := toHex (showHeader h);
     jwt.decodeHeader s := bindOpt (fromHex s) readHeader;
     jwt.encodeClaims c := toHex (showClaims c);
     jwt.decodeClaims s := bindOpt (fromHex s) readClaims;
     jwt.EncodeSegment := toHex;
     jwt.DecodeSegment := fromHex;
     jwt.Sign m text key :=
       match m with
       | jwt.SigningMethodHMAC h => inr (mac h text key)
       | _ => inl ErrInvalidKeyType
       end;
     jwt.Verify m text sig key :=
       match m with
       | jwt.SigningMethodHMAC h => String.eqb sig (mac h text key)
       | _ => false
       end |}.

(** The same backend with signature primitives that accept every
    signature under every method. *)
Definition trusting : jwt.Backend Claims.t :=
  {| jwt.encodeHeader := jwt.encodeHeader (Backend := backend);
     jwt.decodeHeader := jwt.decodeHeader (Backend := backend);
     jwt.encodeClaims := jwt.encodeClaims (Backend := backend);
     jwt.decodeClaims := jwt.decodeClaims (Backend := backend);
     jwt.EncodeSegment := jwt.EncodeSegment (Backend := backend);
     jwt.DecodeSegment := jwt.DecodeSegment (Backend := backend);
     jwt.Sign := jwt.Sign (Backend := backend);
     jwt.Verify _ _ _ _ := true |}.

(** A request with the given Authorization header values and [token]
    query values. *)
Definition request (method : string) (auth query : list string) : http.Request :=
  {| http.Method := method;
     http.Header := {[ "Authorization" := auth ]};
     http.Query := {[ "token" := query ]} |}.

(** Clock readings: an issuance, and the second reading of the same
    issuance a little later. *)
Definition t0 : GoTime.Instant := 1764585096123456789.
Definition t0' : GoTime.Instant := 1764585096123460000.

(** The token issued at [t0] for the guest name "guest-d3e6". *)
Definition guestToken : string :=
  Eval vm_compute in fst (fst (generateGuestToken t0 t0' "guest-d3e6")).

(** The token issued at [t0] for the empty guest name. *)
Definition namelessToken : string :=
  Eval vm_compute in fst (fst (generateGuestToken t0 t0' "")).

(** The claims of [guestToken] under a header that names RS256, with
    some signature. *)
Definition rs256Token : string :=
  Eval vm_compute in
    jwt.encodeHeader {| jwt.typ := Some "JWT"; jwt.alg := Some "RS256" |}
    +:+ "." +:+ jwt.encodeClaims (guestClaims t0 t0' "guest-d3e6")
    +:+ "." +:+ jwt.EncodeSegment "signature".

(** The claims of [guestToken] signed with the secret under HS384. *)
Definition hs384Token : string :=
  Eval vm_compute in
    match jwt.SignedString
            (jwt.NewWithClaims (jwt.SigningMethodHMAC jwt.SHA384)
               (guestClaims t0 t0' "guest-d3e6")) jwtSecret with
    | inr tokenString => tokenString
    | inl _ => ""
    end.

(** One hour before and one hour after [guestToken] expires. *)
Definition beforeExpiry : GoTime.Instant := t0 + 23 * GoTime.Hour.
Definition afterExpiry : GoTime.Instant := t0 + 25 * GoTime.Hour.

(** A request that carries [namelessToken] in its query. *)
Definition namelessRequest : http.Request := request "GET" [] [namelessToken].

(** [guestToken] with another signature in its third segment. *)
Definition forgedToken : string :=
  Eval vm_compute in
    match GoStrings.Split guestToken "."%char with
    | [p0; p1; _] => p0 +:+ "." +:+ p1 +:+ "." +:+ toHex "0"
    | _ => ""
    end.

(** Claims with a guest name and no registered claim at all. *)
Definition bareClaims (guestName : string) : Claims.t :=
  {| Claims.GuestName := guestName;
     Claims.RegisteredClaims :=
       {| jwt.Issuer := ""; jwt.Subject := ""; jwt.Audience := [];
          jwt.ExpiresAt := None; jwt.NotBefore := None; jwt.IssuedAt := None;
          jwt.ID := "" |} |}.

(** The token that [sign] makes of [claims] under [method], the empty
    string if signing fails. *)
Definition signedWith (method : jwt.SigningMethod) (claims : Claims.t) : string :=
  match jwt.SignedString (jwt.NewWithClaims method claims) jwtSecret with
  | inr tokenString => tokenString
  | inl _ => ""
  end.

(** A token without expiry, signed with the secret under HS512. *)
Definition eternalToken : string :=
  Eval vm_compute in signedWith (jwt.SigningMethodHMAC jwt.SHA512) (bareClaims "root").

(** Claims that become valid one hour after [t0] and expire one day
    after [t0]. *)
Definition embargoedClaims : Claims.t :=
  {| Claims.GuestName := "guest-early";
     Claims.RegisteredClaims :=
       {| jwt.Issuer := ""; jwt.Subject := ""; jwt.Audience := [];
          jwt.ExpiresAt := Some (GoTime.Unix t0 + 86400);
          jwt.NotBefore := Some (GoTime.Unix t0 + 3600);
          jwt.IssuedAt := None;
          jwt.ID := "" |} |}.

Definition embargoedToken : string :=
  Eval vm_compute in signedWith jwt.SigningMethodHS256 embargoedClaims.

(** The same backend with a signing primitive that always fails. *)
Definition failing : jwt.Backend Claims.t :=
  {| jwt.encodeHeader := jwt.encodeHeader (Backend := backend);
     jwt.decodeHeader := jwt.decodeHeader (Backend := backend);
     jwt.encodeClaims := jwt.encodeClaims (Backend := backend);
     jwt.decodeClaims := jwt.decodeClaims (Backend := backend);
     jwt.EncodeSegment := jwt.EncodeSegment (Backend := backend);
     jwt.DecodeSegment := jwt.DecodeSegment (Backend := backend);
     jwt.Sign _ _ _ := inl ErrInvalidKey;
     jwt.Verify := jwt.Verify (Backend := backend) |}.

(** The strings of claims as [encoding/json] hands them back. *)
Definition coerceClaims (c : Claims.t) : Claims.t :=
  let r := Claims.RegisteredClaims c in
  {| Claims.GuestName := json.coerce (Claims.GuestName c);
     Claims.RegisteredClaims :=
       {| jwt.Issuer := json.coerce (jwt.Issuer r);
          jwt.Subject := json.coerce (jwt.Subject r);
          jwt.Audience := List.map json.coerce (jwt.Audience r);
          jwt.ExpiresAt := jwt.ExpiresAt r;
          jwt.NotBefore := jwt.NotBefore r;
          jwt.IssuedAt := jwt.IssuedAt r;
          jwt.ID := json.coerce (jwt.ID r) |} |}.

(** The same backend with a claims encoder that treats strings as
    [encoding/json] does. *)
Definition coercing : jwt.Backend Claims.t :=
  {| jwt.encodeHeader := jwt.encodeHeader (Backend := backend);
     jwt.decodeHeader := jwt.decodeHeader (Backend := backend);
     jwt.encodeClaims c := jwt.encodeClaims (Backend := backend) (coerceClaims c);
     jwt.decodeClaims := jwt.decodeClaims (Backend := backend);
     jwt.EncodeSegment := jwt.EncodeSegment (Backend := backend);
     jwt.DecodeSegment := jwt.DecodeSegment (Backend := backend);
     jwt.Sign := jwt.Sign (Backend := backend);
     jwt.Verify := jwt.Verify (Backend := backend) |}.

(** A guest name of one byte, 0xFF, which is not UTF-8. *)
Definition rawName : string := String (ascii_of_N 255) "".

(** The token that the coercing backend issues at [t0] for [rawName]. *)
Definition rawToken : string :=
  Eval vm_compute in
    fst (fst (generateGuestToken (B:=coercing) t0 t0' rawName)).

End Sample.


(** ** Requests used in the statements *)

(** The request [r] with its Authorization header removed. *)
Definition withoutAuthorization (r : http.Request) : http.Request :=
  {| http.Method := http.Method r;
     http.Header := delete "Authorization" (http.Header r);
     http.Query := http.Query r |}.

(** ** The two sides of the gate's contract *)

Section Gate.
Context `{B : jwt.Backend Claims.t}.

(** The gate returns an identity that is not empty, and no error. *)
Definition admitsNonEmpty (now : GoTime.Instant) (r : http.Request) : Prop :=
  exists identity,
    identity <> "" /\ authenticateWebSocket now r = (identity, None).

(** Credential extraction and token validation both succeed. *)
Definition bothSucceed (now : GoTime.Instant) (r : http.Request) : Prop :=
  exists token claims,
    extractTokenFromRequest r = (token, None)
    /\ validateToken now token = inr claims.

(** The name given to [generateGuestToken] comes back: whenever a
    token is issued for [guestName], then before its expiry
    [validateToken] returns claims with that guest name, and the gate
    returns that name for every request that carries the token. *)
Definition nameComesBack (now1 now2 now : GoTime.Instant) (guestName : string)
  : Prop :=
  forall tok exp,
    generateGuestToken now1 now2 guestName = (tok, exp, None) ->
    GoTime.Before now (GoTime.FromUnix exp) = true ->
    (exists claims,
       validateToken now tok = inr claims /\ Claims.GuestName claims = guestName)
    /\ (forall r, extractTokenFromRequest r = (tok, None) ->
                  authenticateWebSocket now r = (guestName, None)).

End Gate.

(** * Properties *)

(** ** [strings.Split] *)

Section SplitFacts.
Import GoStrings.

Lemma Split_not_nil (s : string) (sep : ascii) : Split s sep <> [].
Proof.
  destruct s as [|c rest]; simpl; [discriminate|].
  destruct (Ascii.eqb c sep); [discriminate|].
  destruct (Split rest sep); discriminate.
Qed.

(** A string without the separator is its own single part. *)
Lemma Split_free (s : string) (sep : ascii) :
  free_of sep s = true -> Split s sep = [s].
Proof.
  induction s as [|c rest IH]; simpl; [reflexivity|].
  intros Hfree. apply andb_true_iff in Hfree as [Hc Hrest].
  apply negb_true_iff in Hc. rewrite Hc, (IH Hrest). reflexivity.
Qed.

(** The first part ends at the first separator. *)
Lemma Split_app (a b : string) (sep : ascii) :
  free_of sep a = true ->
  Split (a +:+ String sep b) sep = a :: Split b sep.
Proof.
  induction a as [|c rest IH]; simpl.
  - intros _. rewrite Ascii.eqb_refl. reflexivity.
  - intros Hfree. apply andb_true_iff in Hfree as [Hc Hrest].
    apply negb_true_iff in Hc. rewrite Hc, (IH Hrest). reflexivity.
Qed.

(** Conversely, a single part is the whole string, and it holds no
    separator. *)
Lemma Split_single (s p : string) (sep : ascii) :
  Split s sep = [p] -> p = s /\ free_of sep s = true.
Proof.
  revert p. induction s as [|c rest IH]; simpl; intros p Hsplit.
  - injection Hsplit as <-. split; reflexivity.
  - destruct (Ascii.eqb c sep) eqn:Hc.
    + injection Hsplit as _ Hnil. destruct (Split_not_nil _ _ Hnil).
    + destruct (Split rest sep) as [|q qs] eqn:Hrest; [destruct (Split_not_nil _ _ Hrest)|].
      injection Hsplit as <- ->. destruct (IH q eq_refl) as [-> Hfree].
      split; [reflexivity|]. simpl. rewrite Hfree. reflexivity.
Qed.

(** Two parts are the two sides of the only separator. *)
Lemma Split_pair (s p0 p1 : string) (sep : ascii) :
  Split s sep = [p0; p1] ->
  s = p0 +:+ String sep p1 /\ free_of sep p0 = true /\ free_of sep p1 = true.
Proof.
  revert p0. induction s as [|c rest IH]; simpl; intros p0 Hsplit; [discriminate|].
  destruct (Ascii.eqb c sep) eqn:Hc.
  - injection Hsplit as <- Hrest. apply Ascii.eqb_eq in Hc as ->.
    destruct (Split_single _ _ _ Hrest) as [-> Hfree]. auto.
  - destruct (Split rest sep) as [|q qs] eqn:Hrest; [discriminate|].
    injection Hsplit as <- ->. destruct (IH q eq_refl) as (-> & Hq & Hp1).
    repeat split; [|assumption]. simpl. rewrite Hc, Hq. reflexivity.
Qed.

Lemma append_assoc (a b c : string) : (a +:+ b) +:+ c = a +:+ (b +:+ c).
Proof.
  induction a as [|x a IH]; [reflexivity|].
  change (String x ((a +:+ b) +:+ c) = String x (a +:+ (b +:+ c))).
  rewrite IH. reflexivity.
Qed.

(** Three parts joined by the separator split back into the three. *)
Lemma Split_three (a b c : string) (sep : ascii) :
  free_of sep a = true -> free_of sep b = true -> free_of sep c = true ->
  Split ((a +:+ String sep b) +:+ String sep c) sep = [a; b; c].
Proof.
  intros Ha Hb Hc. rewrite append_assoc.
  change (String sep b +:+ String sep c) with (String sep (b +:+ String sep c)).
  rewrite (Split_app a _ sep Ha), (Split_app b _ sep Hb), (Split_free c sep Hc).
  reflexivity.
Qed.

End SplitFacts.

(** ** Credential extraction *)

Section Extraction.
Import GoStrings.

(** What method 2 yields. *)
Lemma extract_without_header (r : http.Request) :
  http.Get (http.Header r) "Authorization" = "" ->
  extractTokenFromRequest r =
    (let token := http.Get (http.Query r) "token" in
     if negb (String.eqb token "") then (token, None)
     else ("", Some ErrNoTokenFound)).
Proof. intros Hget. unfold extractTokenFromRequest. rewrite Hget. reflexivity. Qed.

(** A header of the form "Bearer", one space, and a token without
    space yields that token, whatever else the request holds. *)
Lemma extract_bearer (r : http.Request) (tok : string) :
  http.Get (http.Header r) "Authorization" = "Bearer " +:+ tok ->
  free_of " "%char tok = true ->
  extractTokenFromRequest r = (tok, None).
Proof.
  intros Hget Hfree. unfold extractTokenFromRequest. rewrite Hget.
  change ("Bearer " +:+ tok) with ("Bearer" +:+ String " "%char tok).
  rewrite Split_app by reflexivity. rewrite (Split_free tok) by exact Hfree.
  reflexivity.
Qed.

(** A header that is not "Bearer" and one more part is skipped. *)
Lemma extract_skips_header (r : http.Request) :
  (forall tok, Split (http.Get (http.Header r) "Authorization") " "%char
               <> ["Bearer"; tok]) ->
  extractTokenFromRequest r =
    (let token := http.Get (http.Query r) "token" in
     if negb (String.eqb token "") then (token, None)
     else ("", Some ErrNoTokenFound)).
Proof.
  intros Hshape. unfold extractTokenFromRequest.
  destruct (negb (String.eqb (http.Get (http.Header r) "Authorization") ""));
    [|reflexivity].
  destruct (Split (http.Get (http.Header r) "Authorization") " "%char)
    as [|p0 [|p1 [|p2 ps]]] eqn:Hsplit; try reflexivity.
  destruct (String.eqb p0 "Bearer") eqn:Hp0; [|reflexivity].
  apply String.eqb_eq in Hp0 as ->. destruct (Hshape p1). reflexivity.
Qed.

(** The two ways through [extractTokenFromRequest]. *)
Lemma extract_cases (r : http.Request) :
  (exists tok,
     Split (http.Get (http.Header r) "Authorization") " "%char = ["Bearer"; tok]
     /\ extractTokenFromRequest r = (tok, None))
  \/
  ((forall tok, Split (http.Get (http.Header r) "Authorization") " "%char
                <> ["Bearer"; tok])
   /\ extractTokenFromRequest r =
        (let token := http.Get (http.Query r) "token" in
         if negb (String.eqb token "") then (token, None)
         else ("", Some ErrNoTokenFound))).
Proof.
  destruct (Split (http.Get (http.Header r) "Authorization") " "%char)
    as [|p0 [|p1 [|p2 ps]]] eqn:Hsplit;
    try (right; split; [congruence|];
         apply extract_skips_header; rewrite Hsplit; congruence).
  destruct (String.eqb p0 "Bearer") eqn:Hp0.
  - apply String.eqb_eq in Hp0 as ->. left. exists p1. split; [reflexivity|].
    destruct (Split_pair _ _ _ _ Hsplit) as (Hget & _ & Hfree).
    apply extract_bearer; assumption.
  - right. apply String.eqb_neq in Hp0.
    split; [congruence|]. apply extract_skips_header. rewrite Hsplit. congruence.
Qed.

(** An error of [extractTokenFromRequest] is the missing-credential
    error, and comes with the empty string. *)
Lemma extract_error (r : http.Request) (tok : string) (e : error) :
  extractTokenFromRequest r = (tok, Some e) -> tok = "" /\ e = ErrNoTokenFound.
Proof.
  destruct (extract_cases r) as [(tok' & _ & ->)|[_ ->]]; [discriminate|].
  cbv zeta. destruct (negb _); [discriminate|].
  intros Heq. injection Heq as <- <-. split; reflexivity.
Qed.

(** [extractTokenFromRequest] fails exactly when the header is not
    "Bearer" and one more part and the query parameter is empty. *)
Lemma extract_fails_iff (r : http.Request) :
  (exists e, snd (extractTokenFromRequest r) = Some e) <->
  (forall tok, Split (http.Get (http.Header r) "Authorization") " "%char
               <> ["Bearer"; tok])
  /\ http.Get (http.Query r) "token" = "".
Proof.
  destruct (extract_cases r) as [(tok & Hsplit & ->)|[Hshape ->]]; cbv zeta.
  - split; [intros [e He]; discriminate|].
    intros [Hshape _]. destruct (Hshape tok Hsplit).
  - destruct (String.eqb (http.Get (http.Query r) "token") "") eqn:Hq; simpl.
    + apply String.eqb_eq in Hq. split; [auto|]. intros _. eexists. reflexivity.
    + apply String.eqb_neq in Hq. split; [intros [e He]; discriminate|].
      intros [_ Hempty]. contradiction.
Qed.

(** C4. For every request whose Authorization header is "Bearer", one
    space, and a token without space, and whose "token" query parameter
    is not empty, [extractTokenFromRequest] returns the token of the
    header, whatever the query parameter is. *)
Theorem header_takes_precedence (r : http.Request) (tok q : string) :
  http.Get (http.Header r) "Authorization" = "Bearer " +:+ tok ->
  free_of " "%char tok = true ->
  http.Get (http.Query r) "token" = q ->
  q <> "" ->
  extractTokenFromRequest r = (tok, None).
Proof. intros Hget Hfree _ _. apply extract_bearer; assumption. Qed.

Lemma header_takes_precedence_witness :
  extractTokenFromRequest
    (Sample.request "GET" ["Bearer aaa.bbb.ccc"] ["xxx.yyy.zzz"])
  = ("aaa.bbb.ccc", None).
Proof.
  apply (header_takes_precedence _ "aaa.bbb.ccc" "xxx.yyy.zzz").
  - vm_compute. reflexivity.
  - vm_compute. reflexivity.
  - vm_compute. reflexivity.
  - discriminate.
Defined.

(** C5, at the failing input. A request whose Authorization header is
    "Bearer" followed by one space, with no "token" query parameter:
    neither place holds a non-empty credential, and
    [extractTokenFromRequest] succeeds with the empty string. *)
Theorem empty_bearer_token_extracted :
  extractTokenFromRequest (Sample.request "GET" ["Bearer "] []) = ("", None).
Proof. vm_compute. reflexivity. Qed.

(** The same header hides a query parameter that holds a credential. *)
Lemma empty_bearer_token_hides_query :
  extractTokenFromRequest (Sample.request "GET" ["Bearer "] ["aaa.bbb.ccc"])
  = ("", None).
Proof. vm_compute. reflexivity. Qed.

(** C9. For every request whose Authorization header is not empty and
    is not "Bearer" and one more space-separated part,
    [extractTokenFromRequest] returns what the "token" query parameter
    gives (the parameter if it is not empty, the missing-credential
    error otherwise), which is also what it returns for the same request
    without the header. *)
Theorem malformed_header_falls_back (r : http.Request) :
  http.Get (http.Header r) "Authorization" <> "" ->
  (forall tok, Split (http.Get (http.Header r) "Authorization") " "%char
               <> ["Bearer"; tok]) ->
  extractTokenFromRequest r =
    (let token := http.Get (http.Query r) "token" in
     if negb (String.eqb token "") then (token, None)
     else ("", Some ErrNoTokenFound))
  /\ extractTokenFromRequest r = extractTokenFromRequest (withoutAuthorization r).
Proof.
  intros _ Hshape. split; [apply extract_skips_header; exact Hshape|].
  rewrite (extract_skips_header r Hshape).
  symmetry. apply (extract_without_header (withoutAuthorization r)).
  unfold withoutAuthorization, http.Get; simpl.
  rewrite lookup_delete_eq. reflexivity.
Qed.

(** Headers that are skipped: another scheme, three parts, a bare
    token, and "Bearer" alone. *)
Example skipped_headers :
  Forall (fun header =>
            extractTokenFromRequest (Sample.request "GET" [header] ["aaa.bbb.ccc"])
            = ("aaa.bbb.ccc", None))
         ["Token x"; "Bearer a b"; "aaa.bbb.ccc"; "Bearer"; "bearer x"; "Bearer  x"].
Proof. repeat constructor. Qed.

Lemma malformed_header_falls_back_witness :
  extractTokenFromRequest (Sample.request "GET" ["Bearer a b"] ["aaa.bbb.ccc"])
  = ("aaa.bbb.ccc", None).
Proof.
  apply (malformed_header_falls_back
           (Sample.request "GET" ["Bearer a b"] ["aaa.bbb.ccc"])).
  - vm_compute. discriminate.
  - intros tok. vm_compute. discriminate.
Defined.

End Extraction.

(** ** The token library *)

Section ParserFacts.
Context {C : Type} `{jwt.Claims C} `{jwt.Backend C}.

(** Every method is registered under its own name. *)
Lemma GetSigningMethod_Alg (m : jwt.SigningMethod) :
  jwt.GetSigningMethod (jwt.Alg m) = Some m.
Proof. destruct m as [[]|[]|[]|[]| |]; reflexivity. Qed.

(** A signed string parses back to the header, the claims and the
    method it was made from, and its third segment is the signature. *)
Lemma ParseUnverified_SignedString (method : jwt.SigningMethod) (claims : C)
    (key : jwt.Key) (tokenString : string) :
  let t := jwt.NewWithClaims method claims in
  jwt.RoundTrips t key ->
  jwt.SignedString t key = inr tokenString ->
  exists sig,
    jwt.Sign method (jwt.SigningString t) key = inr sig
    /\ jwt.DecodeSegment (jwt.EncodeSegment sig) = Some sig
    /\ jwt.ParseUnverified tokenString =
         inr ({| jwt.Raw := tokenString; jwt.Method := method;
                 jwt.THeader := jwt.THeader t; jwt.TClaims := claims;
                 jwt.Signature := ""; jwt.Valid := false |},
              (jwt.encodeHeader (jwt.THeader t), jwt.encodeClaims claims,
               jwt.EncodeSegment sig)).
Proof.
  intros t Hrt. unfold jwt.SignedString.
  destruct (jwt.Sign (jwt.Method t) (jwt.SigningString t) key) as [e|sig] eqn:Hsign;
    [discriminate|].
  intros Heq. injection Heq as <-. exists sig.
  split; [exact Hsign|]. split; [exact (jwt.sig_back _ _ Hrt sig Hsign)|].
  unfold jwt.ParseUnverified, jwt.SigningString.
  change ("." +:+ jwt.encodeClaims (jwt.TClaims t))
    with (String "."%char (jwt.encodeClaims (jwt.TClaims t))).
  change ("." +:+ jwt.EncodeSegment sig)
    with (String "."%char (jwt.EncodeSegment sig)).
  rewrite Split_three;
    [|exact (jwt.header_free _ _ Hrt)|exact (jwt.claims_free _ _ Hrt)
     |exact (jwt.sig_free _ _ Hrt sig Hsign)].
  rewrite (jwt.header_back _ _ Hrt), (jwt.claims_back _ _ Hrt).
  simpl. rewrite GetSigningMethod_Alg. reflexivity.
Qed.

End ParserFacts.

(** ** Credential verification *)

Section Verification.
Context `{B : jwt.Backend Claims.t}.

(** [keyFunc] hands out the secret for the HMAC methods and for no
    other. *)
Lemma keyFunc_ok_iff (token : jwt.Token Claims.t) (key : jwt.Key) :
  keyFunc token = inr key <->
  key = jwtSecret /\ exists h, jwt.Method token = jwt.SigningMethodHMAC h.
Proof.
  unfold keyFunc. split.
  - destruct (jwt.Method token) as [h| | | | |]; try discriminate.
    intros Heq. injection Heq as <-. eauto.
  - intros [-> [h ->]]. reflexivity.
Qed.

(** The methods [keyFunc] lets through, by name. *)
Lemma keyFunc_names (name : string) (m : jwt.SigningMethod) :
  jwt.GetSigningMethod name = Some m ->
  (exists h, m = jwt.SigningMethodHMAC h) <->
  name = "HS256" \/ name = "HS384" \/ name = "HS512".
Proof.
  unfold jwt.GetSigningMethod. intros Hfind.
  destruct (find_some _ _ Hfind) as [Hin Halg].
  apply String.eqb_eq in Halg. subst name.
  simpl in Hin.
  repeat (destruct Hin as [<-|Hin]; [simpl; split;
    [intros [h Hh]; first [discriminate Hh | tauto]
    |intros [Hn|[Hn|Hn]]; first [discriminate Hn | eauto]]|]).
  destruct Hin.
Qed.

(** What a successful [validateToken] went through. *)
Lemma validateToken_ok_iff (now : GoTime.Instant) (tokenString : string)
    (claims : Claims.t) :
  validateToken now tokenString = inr claims <->
  exists token p0 p1 p2 sig h,
    jwt.ParseUnverified tokenString = inr (token, (p0, p1, p2))
    /\ jwt.TClaims token = claims
    /\ jwt.DecodeSegment p2 = Some sig
    /\ jwt.Method token = jwt.SigningMethodHMAC h
    /\ jwt.Verify (jwt.SigningMethodHMAC h) (p0 +:+ "." +:+ p1) sig jwtSecret = true
    /\ jwt.Validate claims now = None.
Proof.
  unfold validateToken, jwt.ParseWithClaims. split.
  - destruct (jwt.ParseUnverified tokenString)
      as [e|[token [[p0 p1] p2]]]; [discriminate|].
    destruct (jwt.DecodeSegment p2) as [sig|] eqn:Hd; [|discriminate].
    cbv zeta. unfold keyFunc; simpl.
    destruct (jwt.Method token) as [h| | | | |] eqn:Hm; try discriminate.
    destruct (jwt.Verify _ _ _ _) eqn:Hv; simpl; [|discriminate].
    destruct (jwt.Validate _ _) eqn:Hval; simpl; [discriminate|].
    intros Heq. injection Heq as <-.
    exists token, p0, p1, p2, sig, h. auto 10.
  - intros (token & p0 & p1 & p2 & sig & h & -> & <- & -> & Hm & Hv & Hval).
    cbv zeta. unfold keyFunc; simpl. rewrite Hm, Hv, Hval. reflexivity.
Qed.

(** A token that fails validation is turned away at the gate. *)
Lemma authenticate_invalid (now : GoTime.Instant) (r : http.Request)
    (tokenString : string) (e : error) :
  extractTokenFromRequest r = (tokenString, None) ->
  validateToken now tokenString = inl e ->
  authenticateWebSocket now r = ("", Some (ErrInvalidTokenWrap e)).
Proof.
  intros Hx Hv. unfold authenticateWebSocket. rewrite Hx, Hv. reflexivity.
Qed.

(** A token that passes validation is admitted under its guest name. *)
Lemma authenticate_valid (now : GoTime.Instant) (r : http.Request)
    (tokenString : string) (claims : Claims.t) :
  extractTokenFromRequest r = (tokenString, None) ->
  validateToken now tokenString = inr claims ->
  authenticateWebSocket now r = (Claims.GuestName claims, None).
Proof.
  intros Hx Hv. unfold authenticateWebSocket. rewrite Hx, Hv. reflexivity.
Qed.

(** No credential, no admission. *)
Lemma authenticate_missing (now : GoTime.Instant) (r : http.Request)
    (tokenString : string) (e : error) :
  extractTokenFromRequest r = (tokenString, Some e) ->
  authenticateWebSocket now r = ("", Some e).
Proof. intros Hx. unfold authenticateWebSocket. rewrite Hx. reflexivity. Qed.

(** Validation fails unless it succeeds. *)
Lemma validateToken_fails (now : GoTime.Instant) (tokenString : string) :
  (forall claims, validateToken now tokenString <> inr claims) ->
  exists e, validateToken now tokenString = inl e.
Proof.
  intros Hno. destruct (validateToken now tokenString) as [e|claims].
  - exists e. reflexivity.
  - destruct (Hno claims eq_refl).
Qed.

(** C1. For every token string that parses to a token whose signing
    method is not an HMAC method, whatever its claims and whatever the
    signature primitives answer, [validateToken] fails, and
    [authenticateWebSocket] returns an error and the empty identity for
    every request that carries the token. *)
Theorem non_hmac_token_rejected (now : GoTime.Instant) (tokenString : string)
    (token : jwt.Token Claims.t) (parts : string * string * string) :
  jwt.ParseUnverified tokenString = inr (token, parts) ->
  (forall h, jwt.Method token <> jwt.SigningMethodHMAC h) ->
  (exists e, validateToken now tokenString = inl e)
  /\ (forall r, extractTokenFromRequest r = (tokenString, None) ->
                exists e, authenticateWebSocket now r = ("", Some e)).
Proof.
  intros Hparse Hmethod.
  assert (exists e, validateToken now tokenString = inl e) as [e He].
  { apply validateToken_fails. intros claims Hok.
    apply validateToken_ok_iff in Hok
      as (token' & p0 & p1 & p2 & sig & h & Hparse' & _ & _ & Hm & _).
    rewrite Hparse in Hparse'. injection Hparse' as <- _.
    exact (Hmethod h Hm). }
  split; [exists e; exact He|].
  intros r Hx. eexists. apply (authenticate_invalid _ _ _ _ Hx He).
Qed.

(** C3. For every token string that parses to a token whose expiration
    instant is not after the validation time, [validateToken] fails,
    and [authenticateWebSocket] returns an error and the empty identity
    for every request that carries the token. *)
Theorem expired_token_rejected (now : GoTime.Instant) (tokenString : string)
    (token : jwt.Token Claims.t) (parts : string * string * string)
    (exp : jwt.NumericDate) :
  jwt.ParseUnverified tokenString = inr (token, parts) ->
  jwt.GetExpirationTime (jwt.TClaims token) = Some exp ->
  GoTime.FromUnix exp <= now ->
  (exists e, validateToken now tokenString = inl e)
  /\ (forall r, extractTokenFromRequest r = (tokenString, None) ->
                exists e, authenticateWebSocket now r = ("", Some e)).
Proof.
  intros Hparse Hexp Hpast.
  assert (exists e, validateToken now tokenString = inl e) as [e He].
  { apply validateToken_fails. intros claims Hok.
    apply validateToken_ok_iff in Hok
      as (token' & p0 & p1 & p2 & sig & h & Hparse' & <- & _ & _ & _ & Hval).
    rewrite Hparse in Hparse'. injection Hparse' as <- _.
    unfold jwt.Validate, jwt.verifyExpiresAt in Hval. rewrite Hexp in Hval.
    unfold GoTime.Before in Hval.
    destruct (Z.ltb_spec now (GoTime.FromUnix exp)) as [Hlt|_]; [lia|].
    discriminate Hval. }
  split; [exists e; exact He|].
  intros r Hx. eexists. apply (authenticate_invalid _ _ _ _ Hx He).
Qed.

(** C7, as amended. For every request, [authenticateWebSocket] returns
    an identity and no error exactly when credential extraction and
    token validation both succeed, and the identity is then the guest
    name of the validated claims; otherwise it returns an error and the
    empty identity, the error being the one of the extraction or
    wrapping the one of the validation. *)
Theorem gate_error_propagation (now : GoTime.Instant) (r : http.Request) :
  (forall identity,
     authenticateWebSocket now r = (identity, None) <->
     exists token claims,
       extractTokenFromRequest r = (token, None)
       /\ validateToken now token = inr claims
       /\ identity = Claims.GuestName claims)
  /\ (forall identity e,
        authenticateWebSocket now r = (identity, Some e) <->
        identity = ""
        /\ ((exists token, extractTokenFromRequest r = (token, Some e))
            \/ (exists token e',
                  extractTokenFromRequest r = (token, None)
                  /\ validateToken now token = inl e'
                  /\ e = ErrInvalidTokenWrap e'))).
Proof.
  unfold authenticateWebSocket.
  destruct (extractTokenFromRequest r) as [token [ex|]] eqn:Hx.
  - split; intros identity.
    + split; [discriminate|]. intros (t & c & Ht & _). discriminate Ht.
    + intros e. split.
      * intros Heq. injection Heq as <- <-. split; [reflexivity|]. left. eauto.
      * intros [-> [[t Ht]|(t & e' & Ht & _)]]; [|discriminate Ht].
        injection Ht as _ <-. reflexivity.
  - destruct (validateToken now token) as [ev|claims] eqn:Hv.
    + split; intros identity.
      * split; [discriminate|]. intros (t & c & Ht & Hc & _).
        injection Ht as <-. rewrite Hv in Hc. discriminate Hc.
      * intros e. split.
        -- intros Heq. injection Heq as <- <-. split; [reflexivity|].
           right. exists token, ev. auto.
        -- intros [-> [[t Ht]|(t & e' & Ht & He' & ->)]]; [discriminate Ht|].
           injection Ht as <-. rewrite Hv in He'. injection He' as <-.
           reflexivity.
    + split; intros identity.
      * split.
        -- intros Heq. injection Heq as <-. exists token, claims. auto.
        -- intros (t & c & Ht & Hc & ->). injection Ht as <-.
           rewrite Hv in Hc. injection Hc as <-. reflexivity.
      * intros e. split; [discriminate|].
        intros [_ [[t Ht]|(t & e' & Ht & He' & _)]]; [discriminate Ht|].
        injection Ht as <-. rewrite Hv in He'. discriminate He'.
Qed.

(** The expiry that [generateGuestToken] returns is the one it signs. *)
Lemma generateGuestToken_ok (now1 now2 : GoTime.Instant) (guestName tok : string)
    (exp : Z) :
  generateGuestToken now1 now2 guestName = (tok, exp, None) ->
  jwt.SignedString
    (jwt.NewWithClaims jwt.SigningMethodHS256 (guestClaims now1 now2 guestName))
    jwtSecret = inr tok
  /\ exp = GoTime.Unix (GoTime.Add now1 (24 * GoTime.Hour))
  /\ jwt.ExpiresAt (Claims.RegisteredClaims (guestClaims now1 now2 guestName))
     = Some exp.
Proof.
  unfold generateGuestToken.
  destruct (jwt.SignedString _ jwtSecret) as [e|s]; [discriminate|].
  intros Heq. injection Heq as <- <-. repeat split.
Qed.

(** A signed string is not empty. *)
Lemma SignedString_not_empty (t : jwt.Token Claims.t) (key : jwt.Key)
    (tokenString : string) :
  jwt.SignedString t key = inr tokenString -> tokenString <> "".
Proof.
  unfold jwt.SignedString.
  destruct (jwt.Sign (jwt.Method t) (jwt.SigningString t) key) as [e|sig];
    [discriminate|].
  intros Heq. injection Heq as <-.
  destruct (jwt.SigningString t); discriminate.
Qed.

(** C2, as amended. For every guest name on whose claims the codecs and
    signature primitives round-trip: if [generateGuestToken] returns a
    token and an expiry, then at every time before the expiry
    [validateToken] succeeds on the token with claims whose guest name
    is that name, and [authenticateWebSocket] returns exactly that name
    for every request that carries the token: every request from which
    [extractTokenFromRequest] returns it, so every request whose
    Authorization header is "Bearer", one space and the token (the
    token holding no space), and every request whose header is not
    "Bearer" and one more part and whose "token" query parameter is the
    token. *)
Theorem issue_then_verify (now1 now2 now : GoTime.Instant)
    (guestName tok : string) (exp : Z) :
  generateGuestToken now1 now2 guestName = (tok, exp, None) ->
  jwt.RoundTrips
    (jwt.NewWithClaims jwt.SigningMethodHS256 (guestClaims now1 now2 guestName))
    jwtSecret ->
  GoTime.Before now (GoTime.FromUnix exp) = true ->
  (exists claims,
     validateToken now tok = inr claims /\ Claims.GuestName claims = guestName)
  /\ (forall r, extractTokenFromRequest r = (tok, None) ->
                authenticateWebSocket now r = (guestName, None))
  /\ (forall r, http.Get (http.Header r) "Authorization" = "Bearer " +:+ tok ->
                GoStrings.free_of " "%char tok = true ->
                authenticateWebSocket now r = (guestName, None))
  /\ (forall r,
        (forall t, GoStrings.Split (http.Get (http.Header r) "Authorization") " "%char
                   <> ["Bearer"; t]) ->
        http.Get (http.Query r) "token" = tok ->
        authenticateWebSocket now r = (guestName, None)).
Proof.
  intros Hgen Hrt Hbefore.
  destruct (generateGuestToken_ok _ _ _ _ _ Hgen) as (Hsigned & Hexp & Hclaim).
  destruct (ParseUnverified_SignedString _ _ _ _ Hrt Hsigned)
    as (sig & Hsign & Hback & Hparse).
  assert (validateToken now tok = inr (guestClaims now1 now2 guestName)) as Hok.
  { apply validateToken_ok_iff.
    eexists _, _, _, _, sig, jwt.SHA256.
    split; [exact Hparse|]. split; [reflexivity|]. split; [exact Hback|].
    split; [reflexivity|].
    split; [exact (jwt.sign_verify _ _ Hrt sig Hsign)|].
    unfold jwt.Validate, jwt.verifyExpiresAt, jwt.verifyNotBefore.
    cbn [jwt.GetExpirationTime jwt.GetNotBefore Claims_Claims].
    rewrite Hclaim, Hbefore. reflexivity. }
  assert (forall r, extractTokenFromRequest r = (tok, None) ->
                    authenticateWebSocket now r = (guestName, None)) as Hgate.
  { intros r Hx. apply (authenticate_valid _ _ _ _ Hx Hok). }
  split; [|split; [|split]].
  - exists (guestClaims now1 now2 guestName). split; [exact Hok|reflexivity].
  - exact Hgate.
  - intros r Hget Hfree. apply Hgate. apply extract_bearer; assumption.
  - intros r Hshape Hq. apply Hgate.
    rewrite (extract_skips_header r Hshape). cbv zeta. rewrite Hq.
    pose proof (SignedString_not_empty _ _ _ Hsigned) as Hne.
    apply String.eqb_neq in Hne. rewrite Hne. reflexivity.
Qed.

End Verification.

(** ** The gate on the executable backend *)

Section OnSample.
Let B := Sample.backend.

(** Apply [lem], whose first premise is the parse of [tokenString], at
    the parse that the backend [backend] computes. *)
Ltac at_parse_of backend tokenString lem :=
  let parsed := eval vm_compute in (jwt.ParseUnverified (BE:=backend) tokenString) in
  match parsed with
  | inr (?token, ?parts) => eapply (lem token parts)
  end.

(** [Sample.rs256Token] is turned away even by the backend whose
    signature primitives accept everything. *)
Lemma non_hmac_token_rejected_witness :
  (exists e, validateToken (B:=Sample.trusting) Sample.t0' Sample.rs256Token = inl e)
  /\ (forall r, extractTokenFromRequest r = (Sample.rs256Token, None) ->
                exists e, authenticateWebSocket (B:=Sample.trusting) Sample.t0' r
                          = ("", Some e)).
Proof.
  at_parse_of Sample.trusting Sample.rs256Token
    (non_hmac_token_rejected (B:=Sample.trusting) Sample.t0' Sample.rs256Token).
  - vm_compute. reflexivity.
  - intros h. discriminate.
Defined.

(** [Sample.guestToken] expires at second 1764671496; one hour later
    it is turned away. *)
Lemma expired_token_rejected_witness :
  (exists e, validateToken (B:=B) Sample.afterExpiry Sample.guestToken
             = inl e)
  /\ (forall r, extractTokenFromRequest r = (Sample.guestToken, None) ->
                exists e, authenticateWebSocket (B:=B) Sample.afterExpiry r
                          = ("", Some e)).
Proof.
  at_parse_of B Sample.guestToken
    (expired_token_rejected (B:=B) Sample.afterExpiry Sample.guestToken).
  - vm_compute. reflexivity.
  - reflexivity.
  - vm_compute. discriminate.
Defined.

(** The executable backend round-trips on the claims of
    [Sample.guestToken]. *)
Lemma sample_round_trips (guestName : string) :
  guestName = "guest-d3e6" \/ guestName = "" ->
  jwt.RoundTrips (BE:=B)
    (jwt.NewWithClaims jwt.SigningMethodHS256
       (guestClaims Sample.t0 Sample.t0' guestName)) jwtSecret.
Proof.
  intros [->| ->]; constructor;
    try (vm_compute; reflexivity);
    intros sig Hsign; vm_compute in Hsign; injection Hsign as <-;
    vm_compute; reflexivity.
Defined.

Lemma issue_then_verify_witness :
  (exists claims,
     validateToken (B:=B) Sample.beforeExpiry Sample.guestToken
       = inr claims
     /\ Claims.GuestName claims = "guest-d3e6")
  /\ (forall r, extractTokenFromRequest r = (Sample.guestToken, None) ->
                authenticateWebSocket (B:=B) Sample.beforeExpiry r
                = ("guest-d3e6", None))
  /\ (forall r, http.Get (http.Header r) "Authorization"
                = "Bearer " +:+ Sample.guestToken ->
                GoStrings.free_of " "%char Sample.guestToken = true ->
                authenticateWebSocket (B:=B) Sample.beforeExpiry r
                = ("guest-d3e6", None))
  /\ (forall r,
        (forall t, GoStrings.Split (http.Get (http.Header r) "Authorization") " "%char
                   <> ["Bearer"; t]) ->
        http.Get (http.Query r) "token" = Sample.guestToken ->
        authenticateWebSocket (B:=B) Sample.beforeExpiry r = ("guest-d3e6", None)).
Proof.
  apply (issue_then_verify (B:=B) Sample.t0 Sample.t0'
           Sample.beforeExpiry "guest-d3e6" Sample.guestToken
           1764671496).
  - vm_compute. reflexivity.
  - apply sample_round_trips. left. reflexivity.
  - vm_compute. reflexivity.
Defined.

(** ASCII and well-formed sequences pass [json.coerce] unchanged; a
    lone 0xFF, an overlong form, a surrogate and a truncated sequence
    become one U+FFFD for each byte. *)
Example coerce_examples :
  json.coerce "guest-d3e6" = "guest-d3e6"
  /\ json.coerce (String (ascii_of_N 195) (String (ascii_of_N 169) ""))
     = String (ascii_of_N 195) (String (ascii_of_N 169) "")
  /\ json.coerce json.replacement = json.replacement
  /\ json.coerce Sample.rawName = json.replacement
  /\ json.coerce (String (ascii_of_N 192) (String (ascii_of_N 128) ""))
     = json.replacement +:+ json.replacement
  /\ json.coerce (String (ascii_of_N 237) (String (ascii_of_N 160)
                    (String (ascii_of_N 128) "")))
     = json.replacement +:+ json.replacement +:+ json.replacement
  /\ json.coerce (String (ascii_of_N 226) (String (ascii_of_N 130) "x"))
     = json.replacement +:+ json.replacement +:+ "x".
Proof. vm_compute. repeat split. Qed.

(** With strings encoded as [encoding/json] encodes them, a name of
    valid UTF-8 still round-trips. *)
Lemma coercing_round_trips :
  jwt.RoundTrips (BE:=Sample.coercing)
    (jwt.NewWithClaims jwt.SigningMethodHS256
       (guestClaims Sample.t0 Sample.t0' "guest-d3e6")) jwtSecret.
Proof.
  constructor;
    try (vm_compute; reflexivity);
    intros sig Hsign; vm_compute in Hsign; injection Hsign as <-;
    vm_compute; reflexivity.
Qed.

(** C2, as stated, fails for a guest name that is not UTF-8. With
    strings encoded as [encoding/json] encodes them, the token issued
    for the one-byte name 0xFF validates before its expiry, and the
    guest name of its claims, which the gate returns, is U+FFFD. *)
Lemma invalid_utf8_name_replaced :
  generateGuestToken (B:=Sample.coercing) Sample.t0 Sample.t0' Sample.rawName
  = (Sample.rawToken, 1764671496, None)
  /\ validateToken (B:=Sample.coercing) Sample.beforeExpiry Sample.rawToken
     = inr (guestClaims Sample.t0 Sample.t0' json.replacement)
  /\ authenticateWebSocket (B:=Sample.coercing) Sample.beforeExpiry
       (Sample.request "GET" [] [Sample.rawToken])
     = (json.replacement, None)
  /\ json.replacement <> Sample.rawName
  /\ ~ nameComesBack (B:=Sample.coercing) Sample.t0 Sample.t0' Sample.beforeExpiry
        Sample.rawName.
Proof.
  assert (generateGuestToken (B:=Sample.coercing) Sample.t0 Sample.t0' Sample.rawName
          = (Sample.rawToken, 1764671496, None)) as Hgen
    by (vm_compute; reflexivity).
  assert (validateToken (B:=Sample.coercing) Sample.beforeExpiry Sample.rawToken
          = inr (guestClaims Sample.t0 Sample.t0' json.replacement)) as Hok
    by (vm_compute; reflexivity).
  split; [exact Hgen|]. split; [exact Hok|].
  split; [vm_compute; reflexivity|]. split; [discriminate|].
  intros Hback.
  destruct (Hback Sample.rawToken 1764671496 Hgen) as [(claims & Hv & Hname) _].
  - vm_compute. reflexivity.
  - rewrite Hok in Hv. injection Hv as <-. discriminate Hname.
Qed.

(** The HMAC methods are one type with three registered instances: a
    token signed with the secret under HS384 passes [validateToken]
    like one signed under HS256. *)
Lemma hs384_token_validated :
  validateToken (B:=B) Sample.beforeExpiry Sample.hs384Token
  = inr (guestClaims Sample.t0 Sample.t0' "guest-d3e6").
Proof. vm_compute. reflexivity. Qed.

(** C7, as stated, fails for the token that [generateGuestToken] makes
    for the empty guest name: extraction and validation both succeed on
    a request that carries it, and the identity returned is empty. *)
Lemma nameless_token_admitted :
  authenticateWebSocket (B:=B) Sample.beforeExpiry Sample.namelessRequest
  = ("", None)
  /\ ~ (admitsNonEmpty (B:=B) Sample.beforeExpiry Sample.namelessRequest
        <-> bothSucceed (B:=B) Sample.beforeExpiry Sample.namelessRequest).
Proof.
  assert (authenticateWebSocket (B:=B) Sample.beforeExpiry Sample.namelessRequest
          = ("", None)) as Hauth by (vm_compute; reflexivity).
  split; [exact Hauth|].
  intros [_ Hback].
  destruct Hback as (identity & Hne & Heq).
  - exists Sample.namelessToken, (guestClaims Sample.t0 Sample.t0' "").
    split; vm_compute; reflexivity.
  - rewrite Hauth in Heq. injection Heq as <-. apply Hne. reflexivity.
Qed.

End OnSample.

(** ** Issuance *)

Section Issuance.
Context `{B : jwt.Backend Claims.t}.

(** The expiry is a whole day of seconds after the second of the first
    clock reading. *)
Lemma Unix_Add_day (now : GoTime.Instant) :
  GoTime.Unix (GoTime.Add now (24 * GoTime.Hour)) = GoTime.Unix now + 86400.
Proof.
  unfold GoTime.Unix, GoTime.Add, GoTime.Hour, GoTime.Second.
  replace (24 * (3600 * 1000000000)) with (86400 * 1000000000) by lia.
  apply Z.div_add. lia.
Qed.

(** X14. When the clock does not go back between the two readings of
    [generateGuestToken], between the signed expiry and the signed
    issue time lie at most 86400 seconds, and exactly as many when both
    clock readings fall in the same second. *)
Lemma validity_window (now1 now2 : GoTime.Instant) (guestName : string)
    (exp iat : Z) :
  now1 <= now2 ->
  jwt.ExpiresAt (Claims.RegisteredClaims (guestClaims now1 now2 guestName)) = Some exp ->
  jwt.IssuedAt (Claims.RegisteredClaims (guestClaims now1 now2 guestName)) = Some iat ->
  exp - iat <= 86400
  /\ (GoTime.Unix now1 = GoTime.Unix now2 -> exp - iat = 86400).
Proof.
  intros Hle Hexp Hiat. simpl in Hexp, Hiat.
  injection Hexp as <-. injection Hiat as <-.
  unfold jwt.NewNumericDate. rewrite Unix_Add_day.
  assert (GoTime.Unix now1 <= GoTime.Unix now2).
  { unfold GoTime.Unix, GoTime.Second. apply Z.div_le_mono; lia. }
  split; lia.
Qed.

(** What [handleGetToken] writes on a fresh writer when the method is
    neither GET nor POST. *)
Lemma handleGetToken_rejects (hex : string) (now1 now2 : GoTime.Instant)
    (r : http.Request) :
  http.Method r <> "GET" -> http.Method r <> "POST" ->
  handleGetToken hex now1 now2 http.NewRecorder r =
    {| http.RHeader := {[ "Content-Type" := ["application/json"] ]};
       http.Code := Some 405;
       http.Body := [JSONError {| ErrorResponse.Error := "Method not allowed" |}] |}.
Proof.
  intros Hget Hpost. unfold handleGetToken, http.MethodGet, http.MethodPost.
  apply String.eqb_neq in Hget, Hpost. rewrite Hget, Hpost. simpl.
  unfold Encode, http.Write, http.WriteHeader, http.SetHeader, http.Set_; simpl.
  rewrite insert_empty. reflexivity.
Qed.

(** What it writes when the method is GET or POST: the token response
    with status 200, or the failure response with status 500. *)
Lemma handleGetToken_issues (hex : string) (now1 now2 : GoTime.Instant)
    (r : http.Request) :
  http.Method r = "GET" \/ http.Method r = "POST" ->
  (exists token expiresAt,
     generateGuestToken now1 now2 ("guest-" +:+ hex) = (token, expiresAt, None)
     /\ handleGetToken hex now1 now2 http.NewRecorder r =
          {| http.RHeader := {[ "Content-Type" := ["application/json"] ]};
             http.Code := Some 200;
             http.Body :=
               [JSONToken {| TokenResponse.Token := token;
                             TokenResponse.GuestName := "guest-" +:+ hex;
                             TokenResponse.ExpiresAt := expiresAt |}] |})
  \/
  (exists token expiresAt err,
     generateGuestToken now1 now2 ("guest-" +:+ hex) = (token, expiresAt, Some err)
     /\ handleGetToken hex now1 now2 http.NewRecorder r =
          {| http.RHeader := {[ "Content-Type" := ["application/json"] ]};
             http.Code := Some 500;
             http.Body :=
               [JSONError {| ErrorResponse.Error := "Failed to generate token" |}] |}).
Proof.
  intros Hmethod. unfold handleGetToken, http.MethodGet, http.MethodPost.
  assert (negb (String.eqb (http.Method r) "GET")
          && negb (String.eqb (http.Method r) "POST") = false) as ->.
  { destruct Hmethod as [-> | ->]; reflexivity. }
  destruct (generateGuestToken now1 now2 ("guest-" +:+ hex))
    as [[token expiresAt] [err|]].
  - right. exists token, expiresAt, err. split; [reflexivity|].
    unfold Encode, http.Write, http.WriteHeader, http.SetHeader, http.Set_; simpl.
    rewrite insert_empty. reflexivity.
  - left. exists token, expiresAt. split; [reflexivity|].
    unfold Encode, http.Write, http.WriteHeader, http.SetHeader, http.Set_; simpl.
    rewrite insert_empty. reflexivity.
Qed.

(** A token response is written only after [generateGuestToken]
    succeeded, holds what it returned, and goes out with status 200. *)
Lemma handleGetToken_token_response (hex : string) (now1 now2 : GoTime.Instant)
    (r : http.Request) (resp : TokenResponse.t) :
  http.Body (handleGetToken hex now1 now2 http.NewRecorder r) = [JSONToken resp] ->
  generateGuestToken now1 now2 ("guest-" +:+ hex)
    = (TokenResponse.Token resp, TokenResponse.ExpiresAt resp, None)
  /\ http.Code (handleGetToken hex now1 now2 http.NewRecorder r) = Some http.StatusOK
  /\ TokenResponse.GuestName resp = "guest-" +:+ hex.
Proof.
  unfold handleGetToken.
  destruct (negb (String.eqb (http.Method r) http.MethodGet)
            && negb (String.eqb (http.Method r) http.MethodPost));
    [discriminate|].
  destruct (generateGuestToken now1 now2 ("guest-" +:+ hex))
    as [[token expiresAt] [err|]]; [discriminate|].
  simpl. intros Heq. injection Heq as <-. simpl. repeat split.
Qed.

(** C10. On a fresh writer: for every request whose method is neither
    GET nor POST, [handleGetToken] writes status 405 and one error body,
    "Method not allowed", and no token response; for every request
    whose method is GET or POST it writes neither status 405 nor that
    body. *)
Theorem method_gate (hex : string) (now1 now2 : GoTime.Instant)
    (r : http.Request) :
  (http.Method r <> "GET" /\ http.Method r <> "POST" ->
   http.Code (handleGetToken hex now1 now2 http.NewRecorder r)
     = Some http.StatusMethodNotAllowed
   /\ http.Body (handleGetToken hex now1 now2 http.NewRecorder r)
      = [JSONError {| ErrorResponse.Error := "Method not allowed" |}]
   /\ forall resp,
        ~ In (JSONToken resp)
             (http.Body (handleGetToken hex now1 now2 http.NewRecorder r)))
  /\ (http.Method r = "GET" \/ http.Method r = "POST" ->
      http.Code (handleGetToken hex now1 now2 http.NewRecorder r)
        <> Some http.StatusMethodNotAllowed
      /\ ~ In (JSONError {| ErrorResponse.Error := "Method not allowed" |})
              (http.Body (handleGetToken hex now1 now2 http.NewRecorder r))).
Proof.
  split.
  - intros [Hget Hpost].
    rewrite (handleGetToken_rejects hex now1 now2 r Hget Hpost). simpl.
    repeat split. intros resp [Heq|[]]. discriminate Heq.
  - intros Hmethod.
    destruct (handleGetToken_issues hex now1 now2 r Hmethod)
      as [(token & expiresAt & _ & ->)|(token & expiresAt & err & _ & ->)];
      simpl; (split; [discriminate|]); intros [Heq|[]]; discriminate Heq.
Qed.

(** C6. On a fresh writer: whenever [handleGetToken] writes a token
    response, and the codecs and signature primitives round-trip on
    the claims it signed, the status is 200, the token of the response
    parses to claims whose guest name is the guest name of the
    response and whose expiration is the [expires_at] of the response,
    and that expiration is the second of the issuance reading of the
    clock plus 24 hours, that is plus 86400 seconds. *)
Theorem issuance_postcondition (hex : string) (now1 now2 : GoTime.Instant)
    (r : http.Request) (resp : TokenResponse.t) :
  http.Body (handleGetToken hex now1 now2 http.NewRecorder r) = [JSONToken resp] ->
  jwt.RoundTrips
    (jwt.NewWithClaims jwt.SigningMethodHS256
       (guestClaims now1 now2 ("guest-" +:+ hex))) jwtSecret ->
  http.Code (handleGetToken hex now1 now2 http.NewRecorder r) = Some http.StatusOK
  /\ (exists token parts,
        jwt.ParseUnverified (TokenResponse.Token resp) = inr (token, parts)
        /\ Claims.GuestName (jwt.TClaims token) = TokenResponse.GuestName resp
        /\ jwt.GetExpirationTime (jwt.TClaims token)
           = Some (TokenResponse.ExpiresAt resp))
  /\ TokenResponse.ExpiresAt resp
     = GoTime.Unix (GoTime.Add now1 (24 * GoTime.Hour))
  /\ TokenResponse.ExpiresAt resp = GoTime.Unix now1 + 86400.
Proof.
  intros Hbody Hrt.
  destruct (handleGetToken_token_response _ _ _ _ _ Hbody)
    as (Hgen & Hcode & Hname).
  destruct (generateGuestToken_ok _ _ _ _ _ Hgen) as (Hsigned & Hexp & Hclaim).
  destruct (ParseUnverified_SignedString _ _ _ _ Hrt Hsigned)
    as (sig & _ & _ & Hparse).
  split; [exact Hcode|]. split.
  - eexists _, _. split; [exact Hparse|]. split; [symmetry; exact Hname|exact Hclaim].
  - split; [exact Hexp|]. rewrite Hexp. apply Unix_Add_day.
Qed.

End Issuance.

Section IssuanceOnSample.
Let B := Sample.backend.

Lemma method_gate_witness :
  (http.Code (handleGetToken (B:=B) "d3e6" Sample.t0 Sample.t0' http.NewRecorder
                (Sample.request "DELETE" [] []))
   = Some http.StatusMethodNotAllowed)
  /\ (http.Code (handleGetToken (B:=B) "d3e6" Sample.t0 Sample.t0' http.NewRecorder
                   (Sample.request "GET" [] []))
      <> Some http.StatusMethodNotAllowed).
Proof.
  split.
  - apply (method_gate (B:=B) "d3e6" Sample.t0 Sample.t0'
             (Sample.request "DELETE" [] [])).
    split; discriminate.
  - apply (method_gate (B:=B) "d3e6" Sample.t0 Sample.t0'
             (Sample.request "GET" [] [])).
    left. reflexivity.
Defined.

Lemma issuance_postcondition_witness :
  http.Code (handleGetToken (B:=B) "d3e6" Sample.t0 Sample.t0' http.NewRecorder
               (Sample.request "POST" [] []))
  = Some http.StatusOK
  /\ (exists token parts,
        jwt.ParseUnverified (BE:=B) Sample.guestToken = inr (token, parts)
        /\ Claims.GuestName (jwt.TClaims token) = "guest-d3e6"
        /\ jwt.GetExpirationTime (jwt.TClaims token) = Some 1764671496)
  /\ 1764671496 = GoTime.Unix (GoTime.Add Sample.t0 (24 * GoTime.Hour))
  /\ 1764671496 = GoTime.Unix Sample.t0 + 86400.
Proof.
  apply (issuance_postcondition (B:=B) "d3e6" Sample.t0 Sample.t0'
           (Sample.request "POST" [] [])
           {| TokenResponse.Token := Sample.guestToken;
              TokenResponse.GuestName := "guest-d3e6";
              TokenResponse.ExpiresAt := 1764671496 |}).
  - vm_compute. reflexivity.
  - apply sample_round_trips. left. reflexivity.
Defined.

End IssuanceOnSample.

(** ** The Hub registry *)

Section Registry.
Import Hub.

Lemma unregister_absent (session : SessionRef) (registry : gset SessionRef) :
  session ∉ registry -> unregister session registry = registry.
Proof.
  intros Hnot. unfold unregister.
  destruct (decide (session ∈ registry)); [contradiction|reflexivity].
Qed.

Lemma unregister_removes (session : SessionRef) (registry : gset SessionRef) :
  session ∉ unregister session registry.
Proof.
  unfold unregister.
  destruct (decide (session ∈ registry)) as [_|Hnot]; [|exact Hnot].
  rewrite elem_of_difference, elem_of_singleton. intros [_ Hne].
  apply Hne. reflexivity.
Qed.

Lemma unregister_keeps (session other : SessionRef) (registry : gset SessionRef) :
  other <> session ->
  other ∈ unregister session registry <-> other ∈ registry.
Proof.
  intros Hne. unfold unregister.
  destruct (decide (session ∈ registry)) as [_|_]; [|reflexivity].
  rewrite elem_of_difference, elem_of_singleton. tauto.
Qed.

(** C8. For every registry and every session, unregistering the session
    twice leaves the registry that unregistering it once leaves, and
    unregistering a session that is not in the registry leaves the
    registry as it is. *)
Theorem unregister_idempotent (session : SessionRef) (registry : gset SessionRef) :
  unregister session (unregister session registry) = unregister session registry
  /\ (session ∉ registry -> unregister session registry = registry).
Proof.
  split.
  - apply unregister_absent, unregister_removes.
  - apply unregister_absent.
Qed.

Lemma unregister_idempotent_witness :
  unregister 2%positive (unregister 2%positive {[1%positive; 2%positive]})
  = unregister 2%positive {[1%positive; 2%positive]}
  /\ unregister 3%positive {[1%positive; 2%positive]} = {[1%positive; 2%positive]}.
Proof.
  split.
  - apply (unregister_idempotent 2%positive {[1%positive; 2%positive]}).
  - apply (unregister_idempotent 3%positive {[1%positive; 2%positive]}).
    vm_compute. intros Hin. discriminate Hin.
Defined.

End Registry.

(** * Further properties *)

(** ** Credential extraction, completely *)

Section ExtractionComplete.
Import GoStrings.

(** X1. [extractTokenFromRequest] returns a token and no error in
    exactly two cases: the Authorization header is "Bearer", one space
    and that token, the token holding no space; or the header is not of
    that shape for any token, and the token is the "token" query
    parameter and is not empty. *)
Theorem extract_succeeds_iff (r : http.Request) (tok : string) :
  extractTokenFromRequest r = (tok, None) <->
  (http.Get (http.Header r) "Authorization" = "Bearer " +:+ tok
   /\ free_of " "%char tok = true)
  \/ ((forall tok', Split (http.Get (http.Header r) "Authorization") " "%char
                    <> ["Bearer"; tok'])
      /\ http.Get (http.Query r) "token" = tok /\ tok <> "").
Proof.
  split.
  - intros Hx. destruct (extract_cases r) as [(tok' & Hsplit & Hx')|[Hshape Hx']];
      rewrite Hx' in Hx.
    + injection Hx as ->. left.
      destruct (Split_pair _ _ _ _ Hsplit) as (Hget & _ & Hfree). auto.
    + right. cbv zeta in Hx.
      destruct (String.eqb (http.Get (http.Query r) "token") "") eqn:Hq;
        simpl in Hx; [discriminate|].
      injection Hx as <-. apply String.eqb_neq in Hq. auto.
  - intros [[Hget Hfree]|(Hshape & Hq & Hne)].
    + apply extract_bearer; assumption.
    + rewrite (extract_skips_header r Hshape). cbv zeta. rewrite Hq.
      apply String.eqb_neq in Hne. rewrite Hne. reflexivity.
Qed.

Lemma extract_succeeds_iff_witness :
  extractTokenFromRequest (Sample.request "GET" ["Basic dXNlcg=="] ["aaa.bbb.ccc"])
  = ("aaa.bbb.ccc", None).
Proof.
  apply (extract_succeeds_iff
           (Sample.request "GET" ["Basic dXNlcg=="] ["aaa.bbb.ccc"]) "aaa.bbb.ccc").
  right. split; [|split].
  - intros tok'. vm_compute. discriminate.
  - vm_compute. reflexivity.
  - discriminate.
Defined.

(** X2. [extractTokenFromRequest] returns an error exactly when the
    Authorization header is not "Bearer" and one more space-separated
    part and the "token" query parameter is empty or absent; the error
    is then "no token found in request" and the string returned with it
    is empty. *)
Theorem extract_fails_exactly (r : http.Request) (s : string) (e : error) :
  extractTokenFromRequest r = (s, Some e) <->
  s = "" /\ e = ErrNoTokenFound
  /\ (forall tok, Split (http.Get (http.Header r) "Authorization") " "%char
                  <> ["Bearer"; tok])
  /\ http.Get (http.Query r) "token" = "".
Proof.
  split.
  - intros Hx. destruct (extract_error r s e Hx) as [-> ->].
    destruct (proj1 (extract_fails_iff r)) as [Hshape Hq];
      [exists ErrNoTokenFound; rewrite Hx; reflexivity|auto].
  - intros (-> & -> & Hshape & Hq).
    rewrite (extract_skips_header r Hshape). cbv zeta. rewrite Hq. reflexivity.
Qed.

Lemma extract_fails_exactly_witness :
  extractTokenFromRequest (Sample.request "GET" ["Bearer"] [""])
  = ("", Some ErrNoTokenFound).
Proof.
  apply (extract_fails_exactly (Sample.request "GET" ["Bearer"] [""])).
  repeat split.
  intros tok. vm_compute. discriminate.
Defined.

End ExtractionComplete.

(** ** Credential verification, case by case *)

Section VerificationCases.
Context `{B : jwt.Backend Claims.t}.
Import GoStrings.

(** What a successful parse read. *)
Lemma ParseUnverified_inv (tokenString p0 p1 p2 : string)
    (token : jwt.Token Claims.t) :
  jwt.ParseUnverified tokenString = inr (token, (p0, p1, p2)) ->
  Split tokenString "."%char = [p0; p1; p2]
  /\ jwt.decodeHeader p0 = Some (jwt.THeader token)
  /\ jwt.decodeClaims p1 = Some (jwt.TClaims token)
  /\ exists name,
       jwt.alg (jwt.THeader token) = Some name
       /\ jwt.GetSigningMethod name = Some (jwt.Method token).
Proof.
  unfold jwt.ParseUnverified.
  destruct (Split tokenString "."%char) as [|q0 [|q1 [|q2 [|q3 qs]]]] eqn:Hsplit;
    try discriminate.
  destruct (jwt.decodeHeader q0) as [header|] eqn:Hh; [|discriminate].
  destruct (jwt.decodeClaims q1) as [claims|] eqn:Hc; [|discriminate].
  destruct (jwt.alg header) as [name|] eqn:Halg; [|discriminate].
  destruct (jwt.GetSigningMethod name) as [method|] eqn:Hm; [|discriminate].
  intros Heq. injection Heq as <- <- <- <-. simpl.
  repeat split; try assumption. exists name. split; assumption.
Qed.

(** A string that is not three segments does not parse. *)
Lemma ParseUnverified_segments (tokenString : string) :
  (forall p0 p1 p2, Split tokenString "."%char <> [p0; p1; p2]) ->
  jwt.ParseUnverified (C:=Claims.t) tokenString = inl ErrTokenMalformed.
Proof.
  intros Hshape. unfold jwt.ParseUnverified.
  destruct (Split tokenString "."%char) as [|q0 [|q1 [|q2 [|q3 qs]]]];
    try reflexivity.
  destruct (Hshape q0 q1 q2). reflexivity.
Qed.

(** [validateToken] on a token that parses and whose signature segment
    decodes: the method, then the signature, then the claims. *)
Lemma validateToken_parsed (now : GoTime.Instant) (tokenString p0 p1 p2 sig : string)
    (token : jwt.Token Claims.t) :
  jwt.ParseUnverified tokenString = inr (token, (p0, p1, p2)) ->
  jwt.DecodeSegment p2 = Some sig ->
  validateToken now tokenString =
    match jwt.Method token with
    | jwt.SigningMethodHMAC h =>
        if jwt.Verify (jwt.SigningMethodHMAC h) (p0 +:+ "." +:+ p1) sig jwtSecret
        then match jwt.Validate (jwt.TClaims token) now with
             | Some err => inl err
             | None => inr (jwt.TClaims token)
             end
        else inl ErrTokenSignatureInvalid
    | _ => inl (ErrKeyfunc (ErrUnexpectedSigningMethod (jwt.alg (jwt.THeader token))))
    end.
Proof.
  intros Hparse Hd. unfold validateToken, jwt.ParseWithClaims.
  rewrite Hparse, Hd. cbv zeta. unfold keyFunc. simpl.
  destruct (jwt.Method token) as [h| | | | |]; try reflexivity.
  destruct (jwt.Verify _ _ _ _); simpl; [|reflexivity].
  destruct (jwt.Validate _ _); reflexivity.
Qed.

Lemma verifyExpiresAt_true_iff (claims : Claims.t) (now : GoTime.Instant) :
  jwt.verifyExpiresAt claims now = true <->
  (forall exp, jwt.ExpiresAt (Claims.RegisteredClaims claims) = Some exp ->
               now < GoTime.FromUnix exp).
Proof.
  unfold jwt.verifyExpiresAt, GoTime.Before.
  cbn [jwt.GetExpirationTime Claims_Claims].
  destruct (jwt.ExpiresAt _) as [exp|].
  - rewrite Z.ltb_lt. split.
    + intros Hlt exp' Heq. injection Heq as <-. exact Hlt.
    + intros Hall. apply Hall. reflexivity.
  - split; [discriminate|reflexivity].
Qed.

Lemma verifyNotBefore_true_iff (claims : Claims.t) (now : GoTime.Instant) :
  jwt.verifyNotBefore claims now = true <->
  (forall nbf, jwt.NotBefore (Claims.RegisteredClaims claims) = Some nbf ->
               GoTime.FromUnix nbf <= now).
Proof.
  unfold jwt.verifyNotBefore, GoTime.Before.
  cbn [jwt.GetNotBefore Claims_Claims].
  destruct (jwt.NotBefore _) as [nbf|].
  - rewrite negb_true_iff, Z.ltb_ge. split.
    + intros Hle nbf' Heq. injection Heq as <-. exact Hle.
    + intros Hall. apply Hall. reflexivity.
  - split; [discriminate|reflexivity].
Qed.

(** The validator lets through the claims that have not expired and
    whose not-before has come. *)
Lemma Validate_None_iff (claims : Claims.t) (now : GoTime.Instant) :
  jwt.Validate claims now = None <->
  (forall exp, jwt.ExpiresAt (Claims.RegisteredClaims claims) = Some exp ->
               now < GoTime.FromUnix exp)
  /\ (forall nbf, jwt.NotBefore (Claims.RegisteredClaims claims) = Some nbf ->
                 GoTime.FromUnix nbf <= now).
Proof.
  rewrite <- verifyExpiresAt_true_iff, <- verifyNotBefore_true_iff.
  unfold jwt.Validate.
  destruct (jwt.verifyExpiresAt claims now), (jwt.verifyNotBefore claims now);
    simpl; split; try discriminate; try (intros [? ?]; discriminate); auto.
Qed.

(** A token signed with the secret under an HMAC method validates to
    its claims whenever the validator lets the claims through. *)
Lemma validateToken_signed (now : GoTime.Instant) (h : jwt.Hash)
    (claims : Claims.t) (tokenString : string) :
  jwt.SignedString (jwt.NewWithClaims (jwt.SigningMethodHMAC h) claims) jwtSecret
    = inr tokenString ->
  jwt.RoundTrips (jwt.NewWithClaims (jwt.SigningMethodHMAC h) claims) jwtSecret ->
  validateToken now tokenString =
    match jwt.Validate claims now with
    | Some err => inl err
    | None => inr claims
    end.
Proof.
  intros Hsigned Hrt.
  destruct (ParseUnverified_SignedString _ _ _ _ Hrt Hsigned)
    as (sig & Hsign & Hback & Hparse).
  rewrite (validateToken_parsed now _ _ _ _ sig _ Hparse Hback). simpl.
  pose proof (jwt.sign_verify _ _ Hrt sig Hsign) as Hv.
  unfold jwt.SigningString in Hv. simpl in Hv. rewrite Hv. reflexivity.
Qed.

(** A string that is not three segments fails validation as
    malformed. *)
Lemma validateToken_segments (now : GoTime.Instant) (tokenString : string) :
  (forall p0 p1 p2, Split tokenString "."%char <> [p0; p1; p2]) ->
  validateToken now tokenString = inl ErrTokenMalformed.
Proof.
  intros Hshape. unfold validateToken, jwt.ParseWithClaims.
  rewrite (ParseUnverified_segments tokenString Hshape). reflexivity.
Qed.

(** X3. Every string that does not consist of exactly three segments
    separated by "." fails [validateToken] with the malformed-token
    error, and [authenticateWebSocket] returns that error, wrapped, and
    the empty identity for every request that carries the string. *)
Theorem malformed_token_rejected (now : GoTime.Instant) (tokenString : string) :
  (forall p0 p1 p2, Split tokenString "."%char <> [p0; p1; p2]) ->
  validateToken now tokenString = inl ErrTokenMalformed
  /\ (forall r, extractTokenFromRequest r = (tokenString, None) ->
                authenticateWebSocket now r
                = ("", Some (ErrInvalidTokenWrap ErrTokenMalformed))).
Proof.
  intros Hshape. pose proof (validateToken_segments now tokenString Hshape) as Hv.
  split; [exact Hv|]. intros r Hx. exact (authenticate_invalid _ _ _ _ Hx Hv).
Qed.

(** X4. For every request whose Authorization header is "Bearer"
    followed by one space and nothing else, [authenticateWebSocket]
    returns the wrapped malformed-token error and the empty identity,
    whatever the "token" query parameter holds: the empty token of the
    header is validated, and the query parameter is never read. *)
Theorem empty_bearer_rejected_at_gate (now : GoTime.Instant) (r : http.Request) :
  http.Get (http.Header r) "Authorization" = "Bearer " ->
  authenticateWebSocket now r = ("", Some (ErrInvalidTokenWrap ErrTokenMalformed)).
Proof.
  intros Hget.
  apply (authenticate_invalid now r "").
  - apply extract_bearer; [exact Hget|reflexivity].
  - apply validateToken_segments. intros p0 p1 p2. discriminate.
Qed.

(** X5. For every token string that parses to a token with an HMAC
    method and whose signature does not verify under the secret over
    the first two segments, [validateToken] fails with the
    invalid-signature error, whatever the claims are, and
    [authenticateWebSocket] returns that error, wrapped, for every
    request that carries the string. *)
Theorem bad_signature_rejected (now : GoTime.Instant)
    (tokenString p0 p1 p2 sig : string) (token : jwt.Token Claims.t)
    (h : jwt.Hash) :
  jwt.ParseUnverified tokenString = inr (token, (p0, p1, p2)) ->
  jwt.DecodeSegment p2 = Some sig ->
  jwt.Method token = jwt.SigningMethodHMAC h ->
  jwt.Verify (jwt.SigningMethodHMAC h) (p0 +:+ "." +:+ p1) sig jwtSecret = false ->
  validateToken now tokenString = inl ErrTokenSignatureInvalid
  /\ (forall r, extractTokenFromRequest r = (tokenString, None) ->
                authenticateWebSocket now r
                = ("", Some (ErrInvalidTokenWrap ErrTokenSignatureInvalid))).
Proof.
  intros Hparse Hd Hm Hv.
  assert (validateToken now tokenString = inl ErrTokenSignatureInvalid) as Hfail.
  { rewrite (validateToken_parsed now _ _ _ _ sig _ Hparse Hd), Hm, Hv.
    reflexivity. }
  split; [exact Hfail|]. intros r Hx. exact (authenticate_invalid _ _ _ _ Hx Hfail).
Qed.

(** X6. For every token string that parses to a token whose method is
    not an HMAC method and whose signature segment decodes,
    [validateToken] fails with the key-function error "unexpected
    signing method" naming the [alg] of the header, before the signature
    and the claims are looked at; the name is none of HS256, HS384,
    HS512. *)
Theorem unexpected_method_reported (now : GoTime.Instant)
    (tokenString p0 p1 p2 sig : string) (token : jwt.Token Claims.t) :
  jwt.ParseUnverified tokenString = inr (token, (p0, p1, p2)) ->
  jwt.DecodeSegment p2 = Some sig ->
  (forall h, jwt.Method token <> jwt.SigningMethodHMAC h) ->
  validateToken now tokenString
  = inl (ErrKeyfunc (ErrUnexpectedSigningMethod (jwt.alg (jwt.THeader token))))
  /\ exists name,
       jwt.alg (jwt.THeader token) = Some name
       /\ name <> "HS256" /\ name <> "HS384" /\ name <> "HS512".
Proof.
  intros Hparse Hd Hm. split.
  - rewrite (validateToken_parsed now _ _ _ _ sig _ Hparse Hd).
    destruct (jwt.Method token) as [h| | | | |]; try reflexivity.
    destruct (Hm h eq_refl).
  - destruct (ParseUnverified_inv _ _ _ _ _ Hparse)
      as (_ & _ & _ & name & Halg & Hget).
    exists name. split; [exact Halg|].
    pose proof (keyFunc_names name _ Hget) as Hnames.
    repeat split; intros ->;
      destruct (proj2 Hnames) as [h Hh]; auto; exact (Hm h Hh).
Qed.

(** X7. For every claims value and every HMAC hash, if signing the
    claims with the secret under that method gives a token, the codecs
    and primitives round-trip on it, the claims have not expired at
    [now] and their not-before has come, then [validateToken] returns
    exactly those claims, and [authenticateWebSocket] returns their
    guest name for every request that carries the token. *)
Theorem secret_holder_accepted (now : GoTime.Instant) (h : jwt.Hash)
    (claims : Claims.t) (tokenString : string) :
  jwt.SignedString (jwt.NewWithClaims (jwt.SigningMethodHMAC h) claims) jwtSecret
    = inr tokenString ->
  jwt.RoundTrips (jwt.NewWithClaims (jwt.SigningMethodHMAC h) claims) jwtSecret ->
  (forall exp, jwt.ExpiresAt (Claims.RegisteredClaims claims) = Some exp ->
               now < GoTime.FromUnix exp) ->
  (forall nbf, jwt.NotBefore (Claims.RegisteredClaims claims) = Some nbf ->
               GoTime.FromUnix nbf <= now) ->
  validateToken now tokenString = inr claims
  /\ (forall r, extractTokenFromRequest r = (tokenString, None) ->
                authenticateWebSocket now r = (Claims.GuestName claims, None)).
Proof.
  intros Hsigned Hrt Hexp Hnbf.
  assert (validateToken now tokenString = inr claims) as Hok.
  { rewrite (validateToken_signed now h claims tokenString Hsigned Hrt).
    rewrite (proj2 (Validate_None_iff claims now) (conj Hexp Hnbf)). reflexivity. }
  split; [exact Hok|]. intros r Hx. exact (authenticate_valid _ _ _ _ Hx Hok).
Qed.

(** X8. Whenever [validateToken] returns claims, the string has exactly
    three segments; the first decodes to a header whose [alg] is HS256,
    HS384 or HS512; the second decodes to the claims returned; the
    third decodes to a signature that verifies under the secret over
    the first two segments; the claims have not expired and their
    not-before has come. *)
Theorem validateToken_sound (now : GoTime.Instant) (tokenString : string)
    (claims : Claims.t) :
  validateToken now tokenString = inr claims ->
  exists p0 p1 p2 header name sig h,
    Split tokenString "."%char = [p0; p1; p2]
    /\ jwt.decodeHeader p0 = Some header
    /\ jwt.alg header = Some name
    /\ (name = "HS256" \/ name = "HS384" \/ name = "HS512")
    /\ jwt.decodeClaims p1 = Some claims
    /\ jwt.DecodeSegment p2 = Some sig
    /\ jwt.Verify (jwt.SigningMethodHMAC h) (p0 +:+ "." +:+ p1) sig jwtSecret = true
    /\ (forall exp, jwt.ExpiresAt (Claims.RegisteredClaims claims) = Some exp ->
                    now < GoTime.FromUnix exp)
    /\ (forall nbf, jwt.NotBefore (Claims.RegisteredClaims claims) = Some nbf ->
                    GoTime.FromUnix nbf <= now).
Proof.
  intros Hok.
  apply validateToken_ok_iff in Hok
    as (token & p0 & p1 & p2 & sig & h & Hparse & <- & Hd & Hm & Hv & Hval).
  destruct (ParseUnverified_inv _ _ _ _ _ Hparse)
    as (Hsplit & Hh & Hc & name & Halg & Hget).
  apply Validate_None_iff in Hval as [Hexp Hnbf].
  exists p0, p1, p2, (jwt.THeader token), name, sig, h.
  repeat split; try assumption.
  apply (keyFunc_names name _ Hget). exists h. exact Hm.
Qed.

(** X9. A token with an HMAC method and a signature that verifies
    under the secret, whose claims carry neither an expiry nor a
    not-before, passes [validateToken] at every time: the expiry is
    checked only when the token has one. *)
Theorem token_without_expiry_always_valid (tokenString p0 p1 p2 sig : string)
    (token : jwt.Token Claims.t) (h : jwt.Hash) :
  jwt.ParseUnverified tokenString = inr (token, (p0, p1, p2)) ->
  jwt.DecodeSegment p2 = Some sig ->
  jwt.Method token = jwt.SigningMethodHMAC h ->
  jwt.Verify (jwt.SigningMethodHMAC h) (p0 +:+ "." +:+ p1) sig jwtSecret = true ->
  jwt.ExpiresAt (Claims.RegisteredClaims (jwt.TClaims token)) = None ->
  jwt.NotBefore (Claims.RegisteredClaims (jwt.TClaims token)) = None ->
  forall now, validateToken now tokenString = inr (jwt.TClaims token).
Proof.
  intros Hparse Hd Hm Hv Hexp Hnbf now.
  rewrite (validateToken_parsed now _ _ _ _ sig _ Hparse Hd), Hm, Hv.
  rewrite (proj2 (Validate_None_iff (jwt.TClaims token) now)); [reflexivity|].
  rewrite Hexp, Hnbf. split; discriminate.
Qed.

(** X10. The times at which a token string passes [validateToken] form
    an interval, and the claims returned do not depend on the time: if
    it passes at [now1] and at [now2], it passes with the same claims at
    every time between them. *)
Theorem validity_is_an_interval (now1 now2 now : GoTime.Instant)
    (tokenString : string) (claims1 claims2 : Claims.t) :
  validateToken now1 tokenString = inr claims1 ->
  validateToken now2 tokenString = inr claims2 ->
  now1 <= now <= now2 ->
  claims1 = claims2 /\ validateToken now tokenString = inr claims1.
Proof.
  intros Hok1 Hok2 Hbetween.
  apply validateToken_ok_iff in Hok1
    as (token & p0 & p1 & p2 & sig & h & Hparse & <- & Hd & Hm & Hv & Hval1).
  apply validateToken_ok_iff in Hok2
    as (token' & p0' & p1' & p2' & sig' & h' & Hparse' & <- & _ & _ & _ & Hval2).
  rewrite Hparse in Hparse'. injection Hparse' as <- _ _ _.
  split; [reflexivity|].
  rewrite (validateToken_parsed now _ _ _ _ sig _ Hparse Hd), Hm, Hv.
  apply Validate_None_iff in Hval1 as [_ Hnbf].
  apply Validate_None_iff in Hval2 as [Hexp _].
  rewrite (proj2 (Validate_None_iff (jwt.TClaims token) now)); [reflexivity|].
  split.
  - intros exp Heq. specialize (Hexp exp Heq). lia.
  - intros nbf Heq. specialize (Hnbf nbf Heq). lia.
Qed.

(** X11. For every token string that parses to a token whose
    not-before instant is after the validation time, [validateToken]
    fails, and [authenticateWebSocket] returns an error and the empty
    identity for every request that carries the token. *)
Theorem not_yet_valid_rejected (now : GoTime.Instant) (tokenString : string)
    (token : jwt.Token Claims.t) (parts : string * string * string)
    (nbf : jwt.NumericDate) :
  jwt.ParseUnverified tokenString = inr (token, parts) ->
  jwt.NotBefore (Claims.RegisteredClaims (jwt.TClaims token)) = Some nbf ->
  now < GoTime.FromUnix nbf ->
  (exists e, validateToken now tokenString = inl e)
  /\ (forall r, extractTokenFromRequest r = (tokenString, None) ->
                exists e, authenticateWebSocket now r = ("", Some e)).
Proof.
  intros Hparse Hnbf Hearly.
  assert (exists e, validateToken now tokenString = inl e) as [e He].
  { apply validateToken_fails. intros claims Hok.
    apply validateToken_ok_iff in Hok
      as (token' & p0 & p1 & p2 & sig & h & Hparse' & <- & _ & _ & _ & Hval).
    rewrite Hparse in Hparse'. injection Hparse' as <- _.
    apply Validate_None_iff in Hval as [_ Hcome].
    specialize (Hcome nbf Hnbf). lia. }
  split; [exists e; exact He|].
  intros r Hx. eexists. apply (authenticate_invalid _ _ _ _ Hx He).
Qed.

(** X12. Every error of [validateToken] is one the parser made:
    malformed token, unspecified or unavailable [alg], unexpected
    signing method, invalid signature, or invalid claims with the
    expired or the not-yet-valid flag set. In particular the error
    "invalid token" of the branch that tests [token.Valid] is never
    returned. *)
Theorem validateToken_errors (now : GoTime.Instant) (tokenString : string)
    (e : error) :
  validateToken now tokenString = inl e ->
  e = ErrTokenMalformed \/ e = ErrAlgUnspecified \/ e = ErrAlgUnavailable
  \/ (exists alg, e = ErrKeyfunc (ErrUnexpectedSigningMethod alg))
  \/ e = ErrTokenSignatureInvalid
  \/ (exists expired notYet,
        e = ErrTokenInvalidClaims expired notYet /\ expired || notYet = true).
Proof.
  unfold validateToken, jwt.ParseWithClaims, jwt.ParseUnverified.
  destruct (Split tokenString "."%char) as [|p0 [|p1 [|p2 [|p3 ps]]]];
    try (intros [= <-]; auto).
  destruct (jwt.decodeHeader p0) as [header|]; [|intros [= <-]; auto].
  destruct (jwt.decodeClaims p1) as [claims|]; [|intros [= <-]; auto].
  destruct (jwt.alg header) as [name|]; [|intros [= <-]; auto].
  destruct (jwt.GetSigningMethod name) as [method|]; [|intros [= <-]; auto].
  destruct (jwt.DecodeSegment p2) as [sig|]; [|intros [= <-]; auto].
  cbv zeta. unfold keyFunc. simpl.
  destruct method as [h| | | | |]; try (intros [= <-]; eauto 10).
  destruct (jwt.Verify _ _ _ _); simpl; [|intros [= <-]; auto 10].
  unfold jwt.Validate.
  destruct (jwt.verifyExpiresAt claims now), (jwt.verifyNotBefore claims now);
    simpl; try discriminate; intros [= <-]; do 5 right; eauto.
Qed.

End VerificationCases.

Section CasesOnSample.
Let B := Sample.backend.

(** The round-trip contract holds at a concrete token. *)
Ltac round_trips :=
  constructor;
    try (vm_compute; reflexivity);
    intros sig Hsign; vm_compute in Hsign; injection Hsign as <-;
    vm_compute; reflexivity.

Lemma malformed_token_rejected_witness :
  validateToken (B:=B) Sample.t0 "aaa.bbb" = inl ErrTokenMalformed
  /\ (forall r, extractTokenFromRequest r = ("aaa.bbb", None) ->
                authenticateWebSocket (B:=B) Sample.t0 r
                = ("", Some (ErrInvalidTokenWrap ErrTokenMalformed))).
Proof.
  apply (malformed_token_rejected (B:=B) Sample.t0 "aaa.bbb").
  intros p0 p1 p2. vm_compute. discriminate.
Defined.

Lemma empty_bearer_rejected_at_gate_witness :
  authenticateWebSocket (B:=B) Sample.beforeExpiry
    (Sample.request "GET" ["Bearer "] [Sample.guestToken])
  = ("", Some (ErrInvalidTokenWrap ErrTokenMalformed)).
Proof.
  apply (empty_bearer_rejected_at_gate (B:=B)).
  vm_compute. reflexivity.
Defined.

Lemma bad_signature_rejected_witness :
  validateToken (B:=B) Sample.beforeExpiry Sample.forgedToken
  = inl ErrTokenSignatureInvalid
  /\ (forall r, extractTokenFromRequest r = (Sample.forgedToken, None) ->
                authenticateWebSocket (B:=B) Sample.beforeExpiry r
                = ("", Some (ErrInvalidTokenWrap ErrTokenSignatureInvalid))).
Proof.
  let parsed := eval vm_compute in (jwt.ParseUnverified (BE:=B) Sample.forgedToken) in
  match parsed with
  | inr (?token, (?p0, ?p1, ?p2)) =>
      apply (bad_signature_rejected (B:=B) Sample.beforeExpiry Sample.forgedToken
               p0 p1 p2 "0" token jwt.SHA256)
  end.
  - vm_compute. reflexivity.
  - vm_compute. reflexivity.
  - reflexivity.
  - vm_compute. reflexivity.
Defined.

Lemma unexpected_method_reported_witness :
  validateToken (B:=B) Sample.afterExpiry Sample.rs256Token
  = inl (ErrKeyfunc (ErrUnexpectedSigningMethod (Some "RS256")))
  /\ exists name,
       Some "RS256" = Some name
       /\ name <> "HS256" /\ name <> "HS384" /\ name <> "HS512".
Proof.
  let parsed := eval vm_compute in (jwt.ParseUnverified (BE:=B) Sample.rs256Token) in
  match parsed with
  | inr (?token, (?p0, ?p1, ?p2)) =>
      apply (unexpected_method_reported (B:=B) Sample.afterExpiry Sample.rs256Token
               p0 p1 p2 "signature" token)
  end.
  - vm_compute. reflexivity.
  - vm_compute. reflexivity.
  - intros h. discriminate.
Defined.

Lemma secret_holder_accepted_witness :
  validateToken (B:=B) Sample.beforeExpiry Sample.hs384Token
  = inr (guestClaims Sample.t0 Sample.t0' "guest-d3e6")
  /\ (forall r, extractTokenFromRequest r = (Sample.hs384Token, None) ->
                authenticateWebSocket (B:=B) Sample.beforeExpiry r
                = ("guest-d3e6", None)).
Proof.
  apply (secret_holder_accepted (B:=B) Sample.beforeExpiry jwt.SHA384
           (guestClaims Sample.t0 Sample.t0' "guest-d3e6") Sample.hs384Token).
  - vm_compute. reflexivity.
  - round_trips.
  - intros exp Heq. injection Heq as <-. vm_compute. reflexivity.
  - intros nbf Heq. discriminate Heq.
Defined.

Lemma validateToken_sound_witness :
  exists p0 p1 p2 header name sig h,
    GoStrings.Split Sample.guestToken "."%char = [p0; p1; p2]
    /\ jwt.decodeHeader (Backend:=B) p0 = Some header
    /\ jwt.alg header = Some name
    /\ (name = "HS256" \/ name = "HS384" \/ name = "HS512")
    /\ jwt.decodeClaims (Backend:=B) p1
       = Some (guestClaims Sample.t0 Sample.t0' "guest-d3e6")
    /\ jwt.DecodeSegment (Backend:=B) p2 = Some sig
    /\ jwt.Verify (Backend:=B) (jwt.SigningMethodHMAC h) (p0 +:+ "." +:+ p1) sig
         jwtSecret = true
    /\ (forall exp,
          jwt.ExpiresAt
            (Claims.RegisteredClaims (guestClaims Sample.t0 Sample.t0' "guest-d3e6"))
          = Some exp -> Sample.beforeExpiry < GoTime.FromUnix exp)
    /\ (forall nbf,
          jwt.NotBefore
            (Claims.RegisteredClaims (guestClaims Sample.t0 Sample.t0' "guest-d3e6"))
          = Some nbf -> GoTime.FromUnix nbf <= Sample.beforeExpiry).
Proof.
  apply (validateToken_sound (B:=B) Sample.beforeExpiry Sample.guestToken
           (guestClaims Sample.t0 Sample.t0' "guest-d3e6")).
  vm_compute. reflexivity.
Defined.

(** A thousand years after [Sample.t0]. *)
Lemma token_without_expiry_always_valid_witness :
  validateToken (B:=B) (Sample.t0 + 8766000 * GoTime.Hour) Sample.eternalToken
  = inr (Sample.bareClaims "root").
Proof.
  let parsed := eval vm_compute in (jwt.ParseUnverified (BE:=B) Sample.eternalToken) in
  match parsed with
  | inr (?token, (?p0, ?p1, ?p2)) =>
      let decoded := eval vm_compute in (jwt.DecodeSegment (Backend:=B) p2) in
      match decoded with
      | Some ?sig =>
          apply (token_without_expiry_always_valid (B:=B) Sample.eternalToken
                   p0 p1 p2 sig token jwt.SHA512)
      end
  end.
  - vm_compute. reflexivity.
  - vm_compute. reflexivity.
  - reflexivity.
  - vm_compute. reflexivity.
  - reflexivity.
  - reflexivity.
Defined.

Lemma validity_is_an_interval_witness :
  guestClaims Sample.t0 Sample.t0' "guest-d3e6"
  = guestClaims Sample.t0 Sample.t0' "guest-d3e6"
  /\ validateToken (B:=B) Sample.t0' Sample.guestToken
     = inr (guestClaims Sample.t0 Sample.t0' "guest-d3e6").
Proof.
  apply (validity_is_an_interval (B:=B) Sample.t0 Sample.beforeExpiry Sample.t0'
           Sample.guestToken).
  - vm_compute. reflexivity.
  - vm_compute. reflexivity.
  - vm_compute. split; discriminate.
Defined.

(** [Sample.embargoedToken] becomes valid one hour after [Sample.t0]. *)
Lemma not_yet_valid_rejected_witness :
  (exists e, validateToken (B:=B) Sample.t0 Sample.embargoedToken = inl e)
  /\ (forall r, extractTokenFromRequest r = (Sample.embargoedToken, None) ->
                exists e, authenticateWebSocket (B:=B) Sample.t0 r = ("", Some e)).
Proof.
  let parsed := eval vm_compute in (jwt.ParseUnverified (BE:=B) Sample.embargoedToken) in
  match parsed with
  | inr (?token, ?parts) =>
      apply (not_yet_valid_rejected (B:=B) Sample.t0 Sample.embargoedToken
               token parts 1764588696)
  end.
  - vm_compute. reflexivity.
  - vm_compute. reflexivity.
  - vm_compute. reflexivity.
Defined.

Lemma validateToken_errors_witness :
  ErrTokenInvalidClaims false true = ErrTokenMalformed
  \/ ErrTokenInvalidClaims false true = ErrAlgUnspecified
  \/ ErrTokenInvalidClaims false true = ErrAlgUnavailable
  \/ (exists alg,
        ErrTokenInvalidClaims false true = ErrKeyfunc (ErrUnexpectedSigningMethod alg))
  \/ ErrTokenInvalidClaims false true = ErrTokenSignatureInvalid
  \/ (exists expired notYet,
        ErrTokenInvalidClaims false true = ErrTokenInvalidClaims expired notYet
        /\ expired || notYet = true).
Proof.
  apply (validateToken_errors (B:=B) Sample.t0 Sample.embargoedToken).
  vm_compute. reflexivity.
Defined.

End CasesOnSample.

(** ** Issuance, end to end *)

Section IssuanceCases.
Context `{B : jwt.Backend Claims.t}.

(** Truncation to the second loses less than a second. *)
Lemma FromUnix_Unix_bounds (t : GoTime.Instant) :
  t - GoTime.Second < GoTime.FromUnix (GoTime.Unix t) <= t.
Proof.
  unfold GoTime.FromUnix, GoTime.Unix, GoTime.Second.
  pose proof (Z.mod_pos_bound t 1000000000 ltac:(lia)) as Hmod.
  pose proof (Z.div_mod t 1000000000 ltac:(lia)) as Hdiv.
  lia.
Qed.

(** X13. A token that [generateGuestToken] issued at the clock reading
    [now1] passes [validateToken] exactly at the times before its
    expiry, and the expiry lies in the last second of the 24 hours that
    follow [now1]: the token is valid up to 24 hours less one second
    after issuance and rejected from 24 hours after issuance on. *)
Theorem issued_token_lifetime (now1 now2 : GoTime.Instant)
    (guestName tok : string) (exp : Z) :
  generateGuestToken now1 now2 guestName = (tok, exp, None) ->
  jwt.RoundTrips
    (jwt.NewWithClaims jwt.SigningMethodHS256 (guestClaims now1 now2 guestName))
    jwtSecret ->
  (forall now,
     validateToken now tok = inr (guestClaims now1 now2 guestName)
     <-> now < GoTime.FromUnix exp)
  /\ (forall now, GoTime.FromUnix exp <= now -> exists e, validateToken now tok = inl e)
  /\ GoTime.Add now1 (24 * GoTime.Hour) - GoTime.Second < GoTime.FromUnix exp
     <= GoTime.Add now1 (24 * GoTime.Hour).
Proof.
  intros Hgen Hrt.
  destruct (generateGuestToken_ok _ _ _ _ _ Hgen) as (Hsigned & Hexp & Hclaim).
  assert (forall now,
            jwt.Validate (guestClaims now1 now2 guestName) now = None
            <-> now < GoTime.FromUnix exp) as Hval.
  { intros now. rewrite Validate_None_iff, Hclaim. simpl. split.
    - intros [Hlt _]. apply Hlt. reflexivity.
    - intros Hlt. split; [intros exp' [= <-]; exact Hlt|discriminate]. }
  split; [|split].
  - intros now.
    rewrite (validateToken_signed now jwt.SHA256 _ tok Hsigned Hrt).
    rewrite <- Hval.
    destruct (jwt.Validate _ now); split; congruence.
  - intros now Hpast.
    rewrite (validateToken_signed now jwt.SHA256 _ tok Hsigned Hrt).
    destruct (jwt.Validate _ now) as [e|] eqn:Hv; [eauto|].
    apply Hval in Hv. lia.
  - rewrite Hexp. apply FromUnix_Unix_bounds.
Qed.

(** X15. On a fresh writer, for every request, [handleGetToken] sets
    the content type to "application/json" and nothing else in the
    header, writes exactly one document, and writes status 200, 405 or
    500; the status is 200 exactly when the document is a token
    response. *)
Theorem handleGetToken_response_shape (hex : string) (now1 now2 : GoTime.Instant)
    (r : http.Request) :
  http.RHeader (handleGetToken hex now1 now2 http.NewRecorder r)
  = {[ "Content-Type" := ["application/json"] ]}
  /\ exists doc,
       http.Body (handleGetToken hex now1 now2 http.NewRecorder r) = [doc]
       /\ (http.Code (handleGetToken hex now1 now2 http.NewRecorder r) = Some 200
           \/ http.Code (handleGetToken hex now1 now2 http.NewRecorder r) = Some 405
           \/ http.Code (handleGetToken hex now1 now2 http.NewRecorder r) = Some 500)
       /\ (http.Code (handleGetToken hex now1 now2 http.NewRecorder r) = Some 200
           <-> exists resp, doc = JSONToken resp).
Proof.
  destruct (String.eqb (http.Method r) "GET") eqn:Hget;
    [apply String.eqb_eq in Hget|apply String.eqb_neq in Hget].
  2: destruct (String.eqb (http.Method r) "POST") eqn:Hpost;
    [apply String.eqb_eq in Hpost|apply String.eqb_neq in Hpost].
  3: { rewrite (handleGetToken_rejects hex now1 now2 r Hget Hpost). simpl.
       split; [reflexivity|]. eexists. split; [reflexivity|].
       split; [auto|]. split; [discriminate|intros [resp Hresp]; discriminate Hresp]. }
  all: destruct (handleGetToken_issues hex now1 now2 r ltac:(auto))
         as [(token & expiresAt & _ & ->)|(token & expiresAt & err & _ & ->)];
       simpl; (split; [reflexivity|]); eexists; (split; [reflexivity|]);
       (split; [auto|]);
       (split; [first [intros _; eexists; reflexivity | discriminate]
               |first [reflexivity | intros [resp Hresp]; discriminate Hresp]]).
Qed.

(** X16. When the method is GET or POST and the library fails to sign
    the claims, [handleGetToken] answers, on a fresh writer, status 500
    with the one error body "Failed to generate token": no token and
    nothing of the library's error reaches the response. *)
Theorem signing_failure_reported (hex : string) (now1 now2 : GoTime.Instant)
    (r : http.Request) (err : error) :
  http.Method r = "GET" \/ http.Method r = "POST" ->
  jwt.Sign jwt.SigningMethodHS256
    (jwt.SigningString
       (jwt.NewWithClaims jwt.SigningMethodHS256
          (guestClaims now1 now2 ("guest-" +:+ hex)))) jwtSecret = inl err ->
  handleGetToken hex now1 now2 http.NewRecorder r =
    {| http.RHeader := {[ "Content-Type" := ["application/json"] ]};
       http.Code := Some 500;
       http.Body :=
         [JSONError {| ErrorResponse.Error := "Failed to generate token" |}] |}.
Proof.
  intros Hmethod Hsign.
  destruct (handleGetToken_issues hex now1 now2 r Hmethod)
    as [(token & expiresAt & Hgen & _)|(token & expiresAt & err' & _ & ->)];
    [|reflexivity].
  assert (jwt.SignedString
            (jwt.NewWithClaims jwt.SigningMethodHS256
               (guestClaims now1 now2 ("guest-" +:+ hex))) jwtSecret = inl err) as Hs.
  { unfold jwt.SignedString. cbv zeta.
    change (jwt.Method (jwt.NewWithClaims jwt.SigningMethodHS256
                          (guestClaims now1 now2 ("guest-" +:+ hex))))
      with jwt.SigningMethodHS256.
    rewrite Hsign. reflexivity. }
  unfold generateGuestToken in Hgen. rewrite Hs in Hgen. discriminate Hgen.
Qed.

(** X17. Issue, then connect: when [handleGetToken] writes a token
    response on a fresh writer and the codecs and primitives round-trip
    on the claims it signed, then at every time before the
    [expires_at] of the response [authenticateWebSocket] admits every
    request that carries the token of the response, under the guest
    name of the response, which is "guest-" followed by the random
    part. *)
Theorem issued_token_admitted (hex : string) (now1 now2 now : GoTime.Instant)
    (r0 : http.Request) (resp : TokenResponse.t) :
  http.Body (handleGetToken hex now1 now2 http.NewRecorder r0) = [JSONToken resp] ->
  jwt.RoundTrips
    (jwt.NewWithClaims jwt.SigningMethodHS256
       (guestClaims now1 now2 ("guest-" +:+ hex))) jwtSecret ->
  now < GoTime.FromUnix (TokenResponse.ExpiresAt resp) ->
  TokenResponse.GuestName resp = "guest-" +:+ hex
  /\ (forall r, extractTokenFromRequest r = (TokenResponse.Token resp, None) ->
                authenticateWebSocket now r = (TokenResponse.GuestName resp, None)).
Proof.
  intros Hbody Hrt Hbefore.
  destruct (handleGetToken_token_response _ _ _ _ _ Hbody) as (Hgen & _ & Hname).
  destruct (generateGuestToken_ok _ _ _ _ _ Hgen) as (Hsigned & _ & Hclaim).
  split; [exact Hname|]. intros r Hx. rewrite Hname.
  apply (authenticate_valid now r (TokenResponse.Token resp)
           (guestClaims now1 now2 ("guest-" +:+ hex)) Hx).
  rewrite (validateToken_signed now jwt.SHA256 _ _ Hsigned Hrt).
  rewrite (proj2 (Validate_None_iff _ now)); [reflexivity|].
  rewrite Hclaim. simpl. split; [intros exp [= <-]; exact Hbefore|discriminate].
Qed.

(** X18. [handleGetToken] reads nothing of the request but its method:
    two requests whose methods are GET or POST get the same response,
    whatever their headers and query parameters. *)
Theorem handleGetToken_reads_only_method (hex : string) (now1 now2 : GoTime.Instant)
    (w : http.ResponseWriter JSON) (r1 r2 : http.Request) :
  http.Method r1 = "GET" \/ http.Method r1 = "POST" ->
  http.Method r2 = "GET" \/ http.Method r2 = "POST" ->
  handleGetToken hex now1 now2 w r1 = handleGetToken hex now1 now2 w r2.
Proof.
  intros H1 H2. unfold handleGetToken, http.MethodGet, http.MethodPost.
  assert (forall r, http.Method r = "GET" \/ http.Method r = "POST" ->
            negb (String.eqb (http.Method r) "GET")
            && negb (String.eqb (http.Method r) "POST") = false) as Hgate.
  { intros r [-> | ->]; reflexivity. }
  rewrite (Hgate r1 H1), (Hgate r2 H2). reflexivity.
Qed.

(** X19. The gate treats the two places of a credential alike: a
    request that carries a token in a bearer Authorization header and a
    request without that header that carries the same token, not
    empty, in the "token" query parameter get the same answer. *)
Theorem gate_channel_independent (now : GoTime.Instant) (r1 r2 : http.Request)
    (tok : string) :
  http.Get (http.Header r1) "Authorization" = "Bearer " +:+ tok ->
  GoStrings.free_of " "%char tok = true ->
  http.Get (http.Header r2) "Authorization" = "" ->
  http.Get (http.Query r2) "token" = tok ->
  tok <> "" ->
  authenticateWebSocket now r1 = authenticateWebSocket now r2.
Proof.
  intros Hh1 Hfree Hh2 Hq2 Hne. unfold authenticateWebSocket.
  rewrite (extract_bearer r1 tok Hh1 Hfree).
  rewrite (extract_without_header r2 Hh2). cbv zeta. rewrite Hq2.
  apply String.eqb_neq in Hne. rewrite Hne. reflexivity.
Qed.

End IssuanceCases.

Section IssuanceCasesOnSample.
Let B := Sample.backend.

Lemma issued_token_lifetime_witness :
  (forall now,
     validateToken (B:=B) now Sample.guestToken
     = inr (guestClaims Sample.t0 Sample.t0' "guest-d3e6")
     <-> now < GoTime.FromUnix 1764671496)
  /\ (forall now, GoTime.FromUnix 1764671496 <= now ->
                 exists e, validateToken (B:=B) now Sample.guestToken = inl e)
  /\ GoTime.Add Sample.t0 (24 * GoTime.Hour) - GoTime.Second
     < GoTime.FromUnix 1764671496
     <= GoTime.Add Sample.t0 (24 * GoTime.Hour).
Proof.
  apply (issued_token_lifetime (B:=B) Sample.t0 Sample.t0' "guest-d3e6"
           Sample.guestToken 1764671496).
  - vm_compute. reflexivity.
  - apply sample_round_trips. left. reflexivity.
Defined.

Lemma validity_window_witness :
  1764671496 - 1764585096 <= 86400
  /\ (GoTime.Unix Sample.t0 = GoTime.Unix Sample.t0' ->
      1764671496 - 1764585096 = 86400).
Proof.
  apply (validity_window Sample.t0 Sample.t0' "guest-d3e6" 1764671496 1764585096).
  - vm_compute. discriminate.
  - vm_compute. reflexivity.
  - vm_compute. reflexivity.
Defined.

Lemma signing_failure_reported_witness :
  handleGetToken (B:=Sample.failing) "d3e6" Sample.t0 Sample.t0' http.NewRecorder
    (Sample.request "GET" [] [])
  = {| http.RHeader := {[ "Content-Type" := ["application/json"] ]};
       http.Code := Some 500;
       http.Body :=
         [JSONError {| ErrorResponse.Error := "Failed to generate token" |}] |}.
Proof.
  apply (signing_failure_reported (B:=Sample.failing) "d3e6" Sample.t0 Sample.t0'
           (Sample.request "GET" [] []) ErrInvalidKey).
  - left. reflexivity.
  - reflexivity.
Defined.

Lemma issued_token_admitted_witness :
  "guest-d3e6" = "guest-" +:+ "d3e6"
  /\ (forall r, extractTokenFromRequest r = (Sample.guestToken, None) ->
                authenticateWebSocket (B:=B) Sample.beforeExpiry r
                = ("guest-d3e6", None)).
Proof.
  apply (issued_token_admitted (B:=B) "d3e6" Sample.t0 Sample.t0'
           Sample.beforeExpiry (Sample.request "POST" [] [])
           {| TokenResponse.Token := Sample.guestToken;
              TokenResponse.GuestName := "guest-d3e6";
              TokenResponse.ExpiresAt := 1764671496 |}).
  - vm_compute. reflexivity.
  - apply sample_round_trips. left. reflexivity.
  - vm_compute. reflexivity.
Defined.

Lemma handleGetToken_reads_only_method_witness :
  handleGetToken (B:=B) "d3e6" Sample.t0 Sample.t0' http.NewRecorder
    (Sample.request "GET" ["Bearer aaa.bbb.ccc"] [])
  = handleGetToken (B:=B) "d3e6" Sample.t0 Sample.t0' http.NewRecorder
      (Sample.request "POST" [] ["xxx.yyy.zzz"]).
Proof.
  apply (handleGetToken_reads_only_method (B:=B)).
  - left. reflexivity.
  - right. reflexivity.
Defined.

Lemma gate_channel_independent_witness :
  authenticateWebSocket (B:=B) Sample.beforeExpiry
    (Sample.request "GET" ["Bearer " +:+ Sample.guestToken] [])
  = authenticateWebSocket (B:=B) Sample.beforeExpiry
      (Sample.request "GET" [] [Sample.guestToken]).
Proof.
  apply (gate_channel_independent (B:=B) Sample.beforeExpiry
           (Sample.request "GET" ["Bearer " +:+ Sample.guestToken] [])
           (Sample.request "GET" [] [Sample.guestToken]) Sample.guestToken).
  - vm_compute. reflexivity.
  - vm_compute. reflexivity.
  - vm_compute. reflexivity.
  - vm_compute. reflexivity.
  - discriminate.
Defined.

End IssuanceCasesOnSample.
